(** * vm_runner: the VirtualBox orchestration engine of [src/vm_runner.py]

    A shallow embedding of [VMManager] and of the action dispatch of [main].

    Conventions of the embedding:
    - a Python [str] is a [string]; a character is a code point below 256;
    - every external process goes through [subprocess_run] or
      [subprocess_popen]; what the process does is decided by a [World],
      which answers the k-th invocation of the run;
    - a computation returns its value (or the Python exception it raises)
      together with the events it emitted, oldest first;
    - [Call] events are ghost markers recording that a method was entered;
    - logger and [print] calls have no effect on control flow and are left
      out. *)

From Stdlib Require Import String Ascii List ZArith Bool Arith Lia.
Import ListNotations.
Open Scope string_scope.

(* ================================================================== *)
(** ** Python string primitives used by the program *)

Module PyStr.

Definition dquote_char : ascii := "034"%char.
Definition newline_char : ascii := "010"%char.
Definition dquote : string := String dquote_char "".
Definition newline : string := String newline_char "".

(** [str.isspace] on one character (code points below 256). *)
Definition is_space (c : ascii) : bool :=
  let n := N_of_ascii c in
  ((9 <=? n) && (n <=? 13) || (28 <=? n) && (n <=? 32)
   || (n =? 133) || (n =? 160))%N.

Fixpoint lstrip_by (p : ascii -> bool) (s : string) : string :=
  match s with
  | EmptyString => EmptyString
  | String c s' => if p c then lstrip_by p s' else s
  end.

Fixpoint rstrip_by (p : ascii -> bool) (s : string) : string :=
  match s with
  | EmptyString => EmptyString
  | String c s' =>
      match rstrip_by p s' with
      | EmptyString => if p c then EmptyString else String c EmptyString
      | r => String c r
      end
  end.

Definition strip_by (p : ascii -> bool) (s : string) : string :=
  rstrip_by p (lstrip_by p s).

(** [s.strip()] *)
Definition strip (s : string) : string := strip_by is_space s.

(** [s.strip(chars)] *)
Definition strip_chars (chars : list ascii) (s : string) : string :=
  strip_by (fun c => existsb (Ascii.eqb c) chars) s.

(** [s.lower()] on code points below 256. *)
Definition lower_char (c : ascii) : ascii :=
  let n := N_of_ascii c in
  if ((65 <=? n) && (n <=? 90)
      || (192 <=? n) && (n <=? 222) && negb (n =? 215))%N
  then ascii_of_N (n + 32) else c.

Fixpoint lower (s : string) : string :=
  match s with
  | EmptyString => EmptyString
  | String c s' => String (lower_char c) (lower s')
  end.

(** [Some rest] when [s = p ++ rest]. *)
Fixpoint drop_prefix (p s : string) : option string :=
  match p, s with
  | EmptyString, _ => Some s
  | String a p', String b s' =>
      if Ascii.eqb a b then drop_prefix p' s' else None
  | String _ _, EmptyString => None
  end.

(** [s.startswith(p)] *)
Definition startswith (p s : string) : bool :=
  match drop_prefix p s with Some _ => true | None => false end.

(** The text before and the text after the leftmost occurrence of [sep]. *)
Fixpoint cut (sep s : string) : option (string * string) :=
  match drop_prefix sep s with
  | Some rest => Some (EmptyString, rest)
  | None =>
      match s with
      | EmptyString => None
      | String c s' =>
          match cut sep s' with
          | Some (a, b) => Some (String c a, b)
          | None => None
          end
      end
  end.

(** [sub in s] *)
Definition contains (sub s : string) : bool :=
  match cut sub s with Some _ => true | None => false end.

Fixpoint split_fuel (fuel : nat) (sep s : string) : list string :=
  match fuel with
  | O => [s]
  | S fuel' =>
      match cut sep s with
      | Some (a, b) => a :: split_fuel fuel' sep b
      | None => [s]
      end
  end.

(** [s.split(sep)] for a non-empty [sep] (every call site of the program
    passes a non-empty literal).  Each cut consumes at least one character,
    so [length s] cuts are enough. *)
Definition split (sep s : string) : list string :=
  split_fuel (S (String.length s)) sep s.

Definition is_empty (s : string) : bool :=
  match s with EmptyString => true | _ => false end.

End PyStr.

(* ================================================================== *)
(** ** Processes, exceptions and the environment *)

(** The exceptions the program can meet. *)
Inductive PyExc : Type :=
| CalledProcessError (returncode : Z) (stderr : string)
| TimeoutExpired
| FileNotFoundError
| IndexError
| OSError.

(** CommandSpec: what is handed to [subprocess.run]. *)
Record Cmd : Type := mkCmd {
  argv : list string;
  input : option string;
  timeout : Z
}.

(** [subprocess.CompletedProcess] *)
Record CompletedProcess : Type := mkCompleted {
  returncode : Z;
  stdout : string;
  stderr : string
}.

(** What one invocation of an external command does. *)
Inductive Outcome : Type :=
| Exited (rc : Z) (out err : string)
| TimedOut
| Missing        (* the executable does not exist *)
| LaunchError.   (* any other error raised while launching *)

Inductive SpawnOutcome : Type :=
| Spawned
| SpawnMissing
| SpawnError.

(** The environment of one run: [respond k c] is what the k-th process
    invocation of the run does when it is command [c]. *)
Record World : Type := mkWorld {
  respond : nat -> Cmd -> Outcome;
  spawn : nat -> list string -> SpawnOutcome;
  path_exists : string -> bool;        (* os.path.exists *)
  path_dirname : string -> string;     (* os.path.dirname *)
  path_join : string -> string -> string  (* os.path.join *)
}.

(** The methods of [VMManager], with their arguments. *)
Inductive Method : Type :=
| m_find_vboxmanage
| m_list_vms
| m_start_vm (vm_name : string) (headless : bool)
| m_stop_vm (vm_name : string) (graceful : bool)
| m_get_vm_ip (vm_name : string)
| m_get_vm_status (vm_name : string)
| m_install_guest_additions (vm_name : string)
| m_send_message_to_vm (vm_name user password message : string)
| m_broadcast_message_to_vm (vm_name user message : string)
| m_open_terminal (vm_name user : string)
| m_start_vm_and_open_a_terminal (vm_name user : string).

Inductive Event : Type :=
| Call (m : Method)
| Run (c : Cmd)
| Popen (args : list string).

Definition is_invocation (e : Event) : bool :=
  match e with Call _ => false | _ => true end.

(** Number of external processes in a list of events. *)
Fixpoint invocations (evs : list Event) : nat :=
  match evs with
  | [] => 0
  | e :: evs' => (if is_invocation e then 1 else 0) + invocations evs'
  end.

(** The commands run, in order. *)
Fixpoint commands (evs : list Event) : list Cmd :=
  match evs with
  | [] => []
  | Run c :: evs' => c :: commands evs'
  | _ :: evs' => commands evs'
  end.

(** A computation: started when [k] processes have been invoked already,
    it yields a value or an exception and the events it emitted. *)
Definition M (A : Type) : Type := nat -> (PyExc + A) * list Event.

Definition ret {A} (a : A) : M A := fun _ => (inr a, []).

Definition raise {A} (e : PyExc) : M A := fun _ => (inl e, []).

Definition bind {A B} (m : M A) (k : A -> M B) : M B :=
  fun n =>
    match m n with
    | (inl e, evs) => (inl e, evs)
    | (inr a, evs) =>
        let (r, evs') := k a (invocations evs + n) in (r, (evs ++ evs')%list)
    end.

(** [try: m  except ...: h]; [h e = None] when no clause matches [e]. *)
Definition try_except {A} (m : M A) (h : PyExc -> option (M A)) : M A :=
  fun n =>
    match m n with
    | (inl e, evs) =>
        match h e with
        | Some k => let (r, evs') := k (invocations evs + n) in (r, (evs ++ evs')%list)
        | None => (inl e, evs)
        end
    | r => r
    end.

Definition emit (e : Event) : M unit := fun _ => (inr tt, [e]).

Declare Scope py_scope.
Delimit Scope py_scope with py.
Notation "x <- m ;; k" := (bind m (fun x => k))
  (at level 61, m at next level, right associativity) : py_scope.
Notation "m ;; k" := (bind m (fun _ => k))
  (at level 61, right associativity) : py_scope.
Open Scope py_scope.

Definition value {A} (r : (PyExc + A) * list Event) : PyExc + A := fst r.
Definition events {A} (r : (PyExc + A) * list Event) : list Event := snd r.

(** [l[i]] *)
Definition py_index {A} (l : list A) (i : nat) : M A :=
  match nth_error l i with
  | Some a => ret a
  | None => raise IndexError
  end.

(** [except Exception] *)
Definition any_exception {A} (k : M A) : PyExc -> option (M A) :=
  fun _ => Some k.

Definition on_CalledProcessError {A} (k : M A) : PyExc -> option (M A) :=
  fun e => match e with CalledProcessError _ _ => Some k | _ => None end.

(* ================================================================== *)
(** ** class VMManager *)

Import PyStr.

(** The instance state: the located binary, or [None]. *)
Record VMManager : Type := mkVMManager {
  vboxmanage_path : option string
}.

(** [self.vboxmanage_path] when it is truthy ([not None], not empty). *)
Definition located (self : VMManager) : option string :=
  match vboxmanage_path self with
  | Some EmptyString => None
  | p => p
  end.

(** Truthiness of an optional string, as in [if args.password:]. *)
Definition truthy (o : option string) : bool :=
  match o with
  | Some (String _ _) => true
  | _ => false
  end.

Definition common_paths : list string :=
  [ "C:\Program Files\Oracle\VirtualBox\VBoxManage.exe";
    "C:\Program Files (x86)\Oracle\VirtualBox\VBoxManage.exe";
    "/usr/bin/VBoxManage";
    "/usr/local/bin/VBoxManage";
    "/Applications/VirtualBox.app/Contents/MacOS/VBoxManage" ].

Definition vbox_path : string :=
  "C:\Program Files\Oracle\VirtualBox\VBoxManage.exe".

(** The [storageattach] command line of [install_guest_additions]. *)
Definition storageattach (vbox vm_name controller_name port medium : string)
  : list string :=
  [ vbox; "storageattach"; vm_name;
    "--storagectl"; controller_name;
    "--port"; port;
    "--device"; "0";
    "--type"; "dvddrive";
    "--medium"; medium ].

Section Methods.

Variable W : World.

(** [subprocess.run(args, capture_output=True, text=True, check=check,
    timeout=tmo, input=inp)] *)
Definition subprocess_run (args : list string) (inp : option string)
    (tmo : Z) (check : bool) : M CompletedProcess :=
  fun n =>
    let c := mkCmd args inp tmo in
    (match respond W n c with
     | Exited rc out err =>
         if check && negb (rc =? 0)%Z
         then inl (CalledProcessError rc err)
         else inr (mkCompleted rc out err)
     | TimedOut => inl TimeoutExpired
     | Missing => inl FileNotFoundError
     | LaunchError => inl OSError
     end, [Run c]).

(** [subprocess.Popen(args, shell=False)] *)
Definition subprocess_popen (args : list string) : M unit :=
  fun n =>
    (match spawn W n args with
     | Spawned => inr tt
     | SpawnMissing => inl FileNotFoundError
     | SpawnError => inl OSError
     end, [Popen args]).

(** [subprocess.run([path, "--version"], ..., check=True, timeout=10)] *)
Definition probe (path : string) : M CompletedProcess :=
  subprocess_run [path; "--version"] None 10 true.

(** The [except CalledProcessError] and [except TimeoutExpired] clauses of
    the probes of the fixed path and of the common paths. *)
Definition probe_failed {A} (k : M A) : PyExc -> option (M A) :=
  fun e =>
    match e with
    | CalledProcessError _ _ => Some k
    | TimeoutExpired => Some k
    | _ => None
    end.

(** The [except (CalledProcessError, FileNotFoundError)] clause of the
    probe of the PATH-resolved name. *)
Definition path_probe_failed {A} (k : M A) : PyExc -> option (M A) :=
  fun e =>
    match e with
    | CalledProcessError _ _ => Some k
    | FileNotFoundError => Some k
    | _ => None
    end.

(** [for path in common_paths: ...], then the final [raise]. *)
Fixpoint probe_common (paths : list string) : M string :=
  match paths with
  | [] => raise FileNotFoundError
  | path :: rest =>
      if path_exists W path then
        found <- try_except (probe path ;; ret (Some path))
                            (probe_failed (ret None)) ;;
        match found with
        | Some p => ret p
        | None => probe_common rest
        end
      else probe_common rest
  end.

Definition find_vboxmanage : M (option string) :=
  emit (Call m_find_vboxmanage) ;;
  try_except
    (found <- (if path_exists W vbox_path then
                 try_except (probe vbox_path ;; ret (Some vbox_path))
                            (probe_failed (ret None))
               else ret None) ;;
     match found with
     | Some p => ret (Some p)
     | None =>
         found <- try_except (probe "VBoxManage" ;; ret (Some "VBoxManage"))
                             (path_probe_failed (ret None)) ;;
         match found with
         | Some p => ret (Some p)
         | None => p <- probe_common common_paths ;; ret (Some p)
         end
     end)
    (any_exception (ret None)).

(** [VMManager.__init__] *)
Definition VMManager_init : M VMManager :=
  p <- find_vboxmanage ;; ret (mkVMManager p).

Variable self : VMManager.

(** The loop of [list_vms] over the lines of the output. *)
Fixpoint collect_vm_names (lines : list string) (vm_names : list string)
  : M (list string) :=
  match lines with
  | [] => ret vm_names
  | line :: rest =>
      if negb (is_empty (strip line)) then
        if contains dquote line then
          vm_name <- py_index (split dquote line) 1 ;;
          collect_vm_names rest (vm_names ++ [vm_name])%list
        else collect_vm_names rest vm_names
      else collect_vm_names rest vm_names
  end.

Definition list_vms : M (list string) :=
  emit (Call m_list_vms) ;;
  match located self with
  | None => ret []
  | Some vbox =>
      try_except
        (result <- subprocess_run [vbox; "list"; "vms"] None 30 true ;;
         collect_vm_names (split newline (strip (stdout result))) [])
        (any_exception (ret []))
  end.

Definition start_vm (vm_name : string) (headless : bool) : M bool :=
  emit (Call (m_start_vm vm_name headless)) ;;
  match located self with
  | None => ret false
  | Some vbox =>
      try_except
        (let vm_type := if headless then "headless" else "gui" in
         subprocess_run [vbox; "startvm"; vm_name; "--type"; vm_type]
                        None 60 true ;;
         ret true)
        (any_exception (ret false))
  end.

Definition broadcast_message_to_vm (vm_name user message : string) : M bool :=
  emit (Call (m_broadcast_message_to_vm vm_name user message)) ;;
  match located self with
  | None => ret false
  | Some vbox =>
      try_except
        (result <- subprocess_run
                     [ vbox; "guestcontrol"; vm_name;
                       "--username"; user;
                       "run"; "--exe"; "/usr/bin/wall";
                       "--"; "wall"; message ]
                     None 30 false ;;
         if (returncode result =? 0)%Z then ret true else ret false)
        (any_exception (ret false))
  end.

Definition stop_vm (vm_name : string) (graceful : bool) : M bool :=
  emit (Call (m_stop_vm vm_name graceful)) ;;
  match located self with
  | None => ret false
  | Some vbox =>
      broadcast_message_to_vm vm_name "nhu" "System will be shutdown" ;;
      try_except
        (let cmd := if graceful
                    then [vbox; "controlvm"; vm_name; "acpipowerbutton"]
                    else [vbox; "controlvm"; vm_name; "poweroff"] in
         subprocess_run cmd None 30 true ;;
         ret true)
        (any_exception (ret false))
  end.

Definition get_vm_ip (vm_name : string) : M (option string) :=
  emit (Call (m_get_vm_ip vm_name)) ;;
  match located self with
  | None => ret None
  | Some vbox =>
      try_except
        (result <- subprocess_run
                     [ vbox; "guestproperty"; "get"; vm_name;
                       "/VirtualBox/GuestInfo/Net/0/V4/IP" ]
                     None 30 true ;;
         let output := strip (stdout result) in
         if contains "No value set!" output then ret None
         else if contains "Value: " output then
           part <- py_index (split "Value: " output) 1 ;;
           ret (Some (strip part))
         else ret None)
        (any_exception (ret None))
  end.

(** The loop of [get_vm_status] over the lines of the output. *)
Fixpoint find_vm_state (lines : list string) : M (option string) :=
  match lines with
  | [] => ret None
  | line :: rest =>
      if startswith "VMState=" line then
        v <- py_index (split "=" line) 1 ;;
        ret (Some (strip_chars [dquote_char] v))
      else find_vm_state rest
  end.

Definition get_vm_status (vm_name : string) : M (option string) :=
  emit (Call (m_get_vm_status vm_name)) ;;
  match located self with
  | None => ret None
  | Some vbox =>
      try_except
        (result <- subprocess_run
                     [vbox; "showvminfo"; vm_name; "--machinereadable"]
                     None 30 true ;;
         find_vm_state (split newline (strip (stdout result))))
        (any_exception (ret None))
  end.

(** The controller search of [install_guest_additions]: the first line
    that names an IDE or SATA storage controller, [None] when the loop ends
    without a [break]. *)
Fixpoint find_controller (lines : list string) : M (option string) :=
  match lines with
  | [] => ret None
  | line :: rest =>
      if contains "storagecontrollername" (lower line)
         && (contains "ide" (lower line) || contains "sata" (lower line))
      then
        v <- py_index (split "=" line) 1 ;;
        ret (Some (strip_chars [dquote_char] v))
      else find_controller rest
  end.

(** [for port in ports_to_try: ...]; the result is [mounted]. *)
Fixpoint try_ports (vbox vm_name controller_name iso : string)
    (ports : list string) : M bool :=
  match ports with
  | [] => ret false
  | port :: rest =>
      mounted <- try_except
                   (subprocess_run
                      (storageattach vbox vm_name controller_name port iso)
                      None 30 true ;;
                    ret true)
                   (on_CalledProcessError (ret false)) ;;
      if mounted then ret true
      else try_ports vbox vm_name controller_name iso rest
  end.

Definition install_guest_additions (vm_name : string) : M bool :=
  emit (Call (m_install_guest_additions vm_name)) ;;
  match located self with
  | None => ret false
  | Some vbox =>
      try_except
        (let vbox_dir := path_dirname W vbox in
         let guest_additions_iso :=
           path_join W vbox_dir "VBoxGuestAdditions.iso" in
         if negb (path_exists W guest_additions_iso) then ret false
         else
           result <- subprocess_run
                       [vbox; "showvminfo"; vm_name; "--machinereadable"]
                       None 30 true ;;
           found <- find_controller (split newline (stdout result)) ;;
           let controller_name :=
             if truthy found
             then match found with Some c => c | None => EmptyString end
             else "IDE Controller" in
           mounted <- try_ports vbox vm_name controller_name
                                guest_additions_iso ["1"; "0"] ;;
           (* [None]: the function has returned False already *)
           state <- (if negb mounted then
                       try_except
                         (subprocess_run
                            (storageattach vbox vm_name controller_name
                                           "1" "emptydrive")
                            None 30 true ;;
                          subprocess_run
                            (storageattach vbox vm_name controller_name
                                           "1" guest_additions_iso)
                            None 30 true ;;
                          ret (Some true))
                         (on_CalledProcessError (ret None))
                     else ret (Some mounted)) ;;
           match state with
           | None => ret false
           | Some mounted => if negb mounted then ret false else ret true
           end)
        (any_exception (ret false))
  end.

Definition send_message_to_vm (vm_name user password message : string)
  : M bool :=
  emit (Call (m_send_message_to_vm vm_name user password message)) ;;
  match located self with
  | None => ret false
  | Some vbox =>
      try_except
        (ip <- get_vm_ip vm_name ;;
         if negb (truthy ip) then ret false
         else
           let ip := match ip with Some a => a | None => EmptyString end in
           result <- subprocess_run
                       [ "ssh"; "-o"; "StrictHostKeyChecking=no";
                         "-o"; "UserKnownHostsFile=/dev/null";
                         user ++ "@" ++ ip;
                         "echo '" ++ message ++ "' | wall" ]
                       (Some password) 30 false ;;
           if (returncode result =? 0)%Z then ret true else ret false)
        (any_exception (ret false))
  end.

Definition open_terminal (vm_name user : string) : M bool :=
  emit (Call (m_open_terminal vm_name user)) ;;
  match located self with
  | None => ret false
  | Some vbox =>
      try_except
        (ip <- get_vm_ip vm_name ;;
         if negb (truthy ip) then ret false
         else
           let ip := match ip with Some a => a | None => EmptyString end in
           subprocess_popen
             [ "wt"; "new-tab"; "--title"; "SSH-" ++ vm_name; "--";
               "ssh"; user ++ "@" ++ ip ] ;;
           ret true)
        (any_exception (ret false))
  end.

(** [status != "running"] *)
Definition not_running (status : option string) : bool :=
  match status with
  | Some s => negb (String.eqb s "running")
  | None => true
  end.

Definition start_vm_and_open_a_terminal (vm_name user : string) : M Z :=
  emit (Call (m_start_vm_and_open_a_terminal vm_name user)) ;;
  status <- get_vm_status vm_name ;;
  (if not_running status then start_vm vm_name true ;; ret tt else ret tt) ;;
  status' <- get_vm_status vm_name ;;
  if not_running status' then ret 1%Z
  else
    open_terminal vm_name user ;;
    ret 0%Z.

End Methods.

(* ================================================================== *)
(** ** main: the dispatch of the requested action *)

Inductive Action : Type :=
| a_start | a_stop | a_ip | a_list | a_guest
| a_terminal | a_message | a_svo | a_status.

(** The parsed command line, after the interactive prompts of [main] have
    filled in what the chosen action needs. *)
Record Args : Type := mkArgs {
  action : Action;
  vm_name : string;
  gui : bool;
  force : bool;
  user : string;
  password : option string;
  text : string
}.

Section Main.

Variable W : World.

(** The [message] branch of [main]. *)
Definition main_message (vm_manager : VMManager) (args : Args) : M Z :=
  let message := text args in
  success <- broadcast_message_to_vm W vm_manager
               (vm_name args) (user args) message ;;
  success <- (if negb success && truthy (password args) then
                send_message_to_vm W vm_manager (vm_name args) (user args)
                  (match password args with
                   | Some p => p
                   | None => EmptyString
                   end)
                  message
              else ret success) ;;
  if success then ret 0%Z else ret 1%Z.

(** [main] from the check that VirtualBox was found; the result is the
    exit status of the process ([exit(1)], or 0 when [main] returns). *)
Definition main_action (vm_manager : VMManager) (args : Args) : M Z :=
  if negb (truthy (vboxmanage_path vm_manager)) then ret 1%Z
  else
    match action args with
    | a_start =>
        let headless := negb (gui args) in
        success <- start_vm W vm_manager (vm_name args) headless ;;
        if negb success then ret 1%Z else ret 0%Z
    | a_stop =>
        let graceful := negb (force args) in
        success <- stop_vm W vm_manager (vm_name args) graceful ;;
        if negb success then ret 1%Z else ret 0%Z
    | a_ip =>
        ip <- get_vm_ip W vm_manager (vm_name args) ;;
        match ip with
        | None => ret 1%Z
        | Some _ => ret 0%Z
        end
    | a_list =>
        list_vms W vm_manager ;;
        ret 0%Z
    | a_guest =>
        success <- install_guest_additions W vm_manager (vm_name args) ;;
        if negb success then ret 1%Z else ret 0%Z
    | a_terminal =>
        success <- open_terminal W vm_manager (vm_name args) (user args) ;;
        if negb success then ret 1%Z else ret 0%Z
    | a_message => main_message vm_manager args
    | a_svo =>
        success <- start_vm_and_open_a_terminal W vm_manager
                     (vm_name args) (user args) ;;
        (* [not success] on an int: true exactly for 0 *)
        if (success =? 0)%Z then ret 1%Z else ret 0%Z
    | a_status =>
        status <- get_vm_status W vm_manager (vm_name args) ;;
        match status with
        | None => ret 1%Z
        | Some _ => ret 0%Z
        end
    end.

Definition main (args : Args) : M Z :=
  vm_manager <- VMManager_init W ;;
  main_action vm_manager args.

End Main.

(* ================================================================== *)
(** ** A POSIX host, used by the concrete runs below *)

Module Posix.

Import PyStr.

(** [p[:p.rfind('/') + 1]] *)
Fixpoint upto_last_slash (p : string) : string :=
  match p with
  | EmptyString => EmptyString
  | String c p' =>
      if contains "/" p then String c (upto_last_slash p') else EmptyString
  end.

(** [posixpath.dirname] *)
Definition dirname (p : string) : string :=
  let head := upto_last_slash p in
  let r := rstrip_by (Ascii.eqb "/"%char) head in
  if is_empty r then head else r.

(** [a.endswith('/')] *)
Definition ends_with_slash (a : string) : bool :=
  match get (String.length a - 1) a with
  | Some c => Ascii.eqb c "/"%char
  | None => false
  end.

(** [posixpath.join] with two arguments *)
Definition join (a b : string) : string :=
  if startswith "/" b then b
  else if is_empty a || ends_with_slash a then a ++ b
  else a ++ "/" ++ b.

(** A host where exactly the paths of [files] exist, every process
    answers by [r] and every spawn by [sp]. *)
Definition host (files : list string) (r : nat -> Cmd -> Outcome)
    (sp : nat -> list string -> SpawnOutcome) : World :=
  mkWorld r sp (fun p => existsb (String.eqb p) files) dirname join.

End Posix.

(* ================================================================== *)
(** ** Vocabulary of the statements *)

Import PyStr.

(** An invocation that ended with exit status zero. *)
Definition exited_zero (o : Outcome) : bool :=
  match o with
  | Exited rc _ _ => (rc =? 0)%Z
  | _ => false
  end.

(** The guest-tooling command of [broadcast_message_to_vm]. *)
Definition guestcontrol_cmd (vbox vm_name user message : string) : Cmd :=
  mkCmd [ vbox; "guestcontrol"; vm_name; "--username"; user;
          "run"; "--exe"; "/usr/bin/wall"; "--"; "wall"; message ]
        None 30.

(** The power-control command of [stop_vm]. *)
Definition controlvm_cmd (vbox vm_name : string) (graceful : bool) : Cmd :=
  mkCmd [ vbox; "controlvm"; vm_name;
          if graceful then "acpipowerbutton" else "poweroff" ]
        None 30.

(** A run that reports [v] and invokes no external process. *)
Definition reports_without_command {A} (r : (PyExc + A) * list Event) (v : A)
  : Prop :=
  value r = inr v /\ invocations (events r) = 0 /\ commands (events r) = [].

(** The guest-property query of [get_vm_ip]. *)
Definition guestproperty_cmd (vbox vm_name : string) : Cmd :=
  mkCmd [ vbox; "guestproperty"; "get"; vm_name;
          "/VirtualBox/GuestInfo/Net/0/V4/IP" ] None 30.

(** The machine-readable info query of [get_vm_status] and of
    [install_guest_additions]. *)
Definition showvminfo_cmd (vbox vm_name : string) : Cmd :=
  mkCmd [vbox; "showvminfo"; vm_name; "--machinereadable"] None 30.

(** The version probe of [find_vboxmanage]. *)
Definition probe_cmd (path : string) : Cmd :=
  mkCmd [path; "--version"] None 10.

(** The start command of [start_vm]. *)
Definition startvm_cmd (vbox vm_name : string) (headless : bool) : Cmd :=
  mkCmd [ vbox; "startvm"; vm_name; "--type";
          if headless then "headless" else "gui" ] None 60.

(** Entries into the SSH fallback [send_message_to_vm]. *)
Definition is_ssh_call (e : Event) : bool :=
  match e with
  | Call (m_send_message_to_vm _ _ _ _) => true
  | _ => false
  end.

Definition ssh_attempts (evs : list Event) : nat :=
  length (filter is_ssh_call evs).

(** The remote-shell command of [send_message_to_vm]. *)
Definition ssh_cmd (user ip password message : string) : Cmd :=
  mkCmd [ "ssh"; "-o"; "StrictHostKeyChecking=no";
          "-o"; "UserKnownHostsFile=/dev/null";
          user ++ "@" ++ ip;
          "echo '" ++ message ++ "' | wall" ]
        (Some password) 30.

(** Counting the entries into the methods selected by [p]. *)
Definition calls (p : Method -> bool) (evs : list Event) : nat :=
  length (filter (fun e => match e with Call m => p m | _ => false end) evs).

Definition is_start_vm (m : Method) : bool :=
  match m with m_start_vm _ _ => true | _ => false end.

Definition is_open_terminal (m : Method) : bool :=
  match m with m_open_terminal _ _ => true | _ => false end.

(** Counting the terminal windows spawned. *)
Definition popens (evs : list Event) : nat :=
  length (filter (fun e => match e with Popen _ => true | _ => false end) evs).

(** The terminal command of [open_terminal]. *)
Definition wt_cmd (vm_name user ip : string) : list string :=
  [ "wt"; "new-tab"; "--title"; "SSH-" ++ vm_name; "--";
    "ssh"; user ++ "@" ++ ip ].

Definition is_get_vm_status (m : Method) : bool :=
  match m with m_get_vm_status _ => true | _ => false end.

(* ================================================================== *)
(** ** The parsers, as the specification words them *)

(** The list-all command of [list_vms]. *)
Definition list_cmd (vbox : string) : Cmd :=
  mkCmd [vbox; "list"; "vms"] None 30.

(** The text of [s] after its first occurrence of [sep], up to the next
    occurrence of [sep] or, when there is none, to the end of [s]. *)
Definition field_after (sep s : string) : option string :=
  match cut sep s with
  | None => None
  | Some (_, rest) =>
      Some (match cut sep rest with
            | Some (v, _) => v
            | None => rest
            end)
  end.

(** The first quoted token of a line: the text between its first double
    quote and the next one; [None] when the line has no such pair. *)
Definition first_quoted (line : string) : option string :=
  match cut dquote line with
  | None => None
  | Some (_, rest) =>
      match cut dquote rest with
      | Some (name, _) => Some name
      | None => None
      end
  end.

(** parseVmList as the specification words it: one name per line that
    contains a quoted token, in line order. *)
Definition parseVmList (lines : list string) : list string :=
  flat_map (fun line => match first_quoted line with
                        | Some name => [name]
                        | None => []
                        end) lines.

(** What the loop of [list_vms] extracts: one name per line that contains
    a double quote, closed or not. *)
Definition names_after_quote (lines : list string) : list string :=
  flat_map (fun line => match field_after dquote line with
                        | Some name => [name]
                        | None => []
                        end) lines.

(** A line whose first double quote, if any, is closed by a second one. *)
Definition quotes_closed (line : string) : bool :=
  match field_after dquote line, first_quoted line with
  | Some _, None => false
  | _, _ => true
  end.

(** The lines of an output, as [list_vms] and [get_vm_status] cut them. *)
Definition output_lines (out : string) : list string :=
  split newline (strip out).

(* ================================================================== *)
(** ** Vocabulary of the guest-additions saga *)

(** The installation medium, next to the located binary. *)
Definition guest_additions_iso (W : World) (vbox : string) : string :=
  path_join W (path_dirname W vbox) "VBoxGuestAdditions.iso".

(** The controller the saga attaches to: the one found, or the default
    when none (or an empty name) was found. *)
Definition controller_of (found : option string) : string :=
  if truthy found
  then match found with Some c => c | None => EmptyString end
  else "IDE Controller".

Definition attach_cmd (vbox vm_name controller_name port medium : string)
  : Cmd :=
  mkCmd (storageattach vbox vm_name controller_name port medium) None 30.

(** The invocation ended with a non-zero exit status. *)
Definition nonzero_exit (o : Outcome) : bool :=
  match o with
  | Exited rc _ _ => negb (rc =? 0)%Z
  | _ => false
  end.

(** The invocation did not end with an exit status at all: it timed out
    or could not be launched. *)
Definition no_exit (o : Outcome) : bool :=
  match o with
  | Exited _ _ _ => false
  | _ => true
  end.

(* ================================================================== *)
(** ** Concrete hosts *)

Module Sample.

Definition vbox : string := "/usr/bin/VBoxManage".

Definition iso : string := "/usr/bin/VBoxGuestAdditions.iso".

Definition manager : VMManager := mkVMManager (Some vbox).

Definition degraded : VMManager := mkVMManager None.

(** The subcommand of a control-binary command line. *)
Definition subcommand (c : Cmd) : string := nth 1 (argv c) "".

(** The guest has no guest tooling: [guestcontrol] exits 1, every other
    command exits 0 with empty output. *)
Definition no_guest_tooling : World :=
  Posix.host [vbox; iso]
    (fun _ c =>
       if String.eqb (subcommand c) "guestcontrol"
       then Exited 1 "" "VBoxManage: error: guest additions not running"
       else Exited 0 "" "")
    (fun _ _ => Spawned).

(** Every command exits 0 and prints [out]. *)
Definition answering (out : string) : World :=
  Posix.host [vbox; iso] (fun _ _ => Exited 0 out "") (fun _ _ => Spawned).

(** The output of the list command in the specification's example. *)
Definition two_vms : string :=
  dquote ++ "web-01" ++ dquote ++ " {u1}" ++ newline
  ++ dquote ++ "db-01" ++ dquote ++ " {u2}".

(** A line with a double quote that is never closed. *)
Definition unclosed : string := "web-01 " ++ dquote ++ "stale".

(** [VBoxManage] resolved through PATH hangs; the binary installed at
    [/usr/bin/VBoxManage] answers its probe. *)
Definition path_probe_hangs : World :=
  Posix.host [vbox; iso]
    (fun _ c =>
       if String.eqb (nth 0 (argv c) "") "VBoxManage" then TimedOut
       else Exited 0 "7.0.14r161095" "")
    (fun _ _ => Spawned).

(** The same host, where the PATH-resolved name exits 1 instead. *)
Definition path_probe_fails : World :=
  Posix.host [vbox; iso]
    (fun _ c =>
       if String.eqb (nth 0 (argv c) "") "VBoxManage"
       then Exited 1 "" "VBoxManage: error"
       else Exited 0 "7.0.14r161095" "")
    (fun _ _ => Spawned).

(** [/usr/bin/VBoxManage] hangs, [/usr/local/bin/VBoxManage] answers and
    nothing is on PATH. *)
Definition common_path_hangs : World :=
  Posix.host [vbox; "/usr/local/bin/VBoxManage"]
    (fun _ c =>
       if String.eqb (nth 0 (argv c) "") "VBoxManage" then Missing
       else if String.eqb (nth 0 (argv c) "") vbox then TimedOut
       else Exited 0 "7.0.14r161095" "")
    (fun _ _ => Spawned).

(** Machine-readable info of a VM in state [state]. *)
Definition vminfo (state : string) : string :=
  "name=" ++ dquote ++ "web-01" ++ dquote ++ newline
  ++ "VMState=" ++ dquote ++ state ++ dquote ++ newline.

(** A running guest with guest tooling and an address; the terminal
    opens. *)
Definition running_guest : World :=
  Posix.host [vbox; iso]
    (fun _ c =>
       if String.eqb (subcommand c) "showvminfo"
       then Exited 0 (vminfo "running") ""
       else if String.eqb (subcommand c) "guestproperty"
       then Exited 0 ("Value: 10.0.2.15" ++ newline) ""
       else Exited 0 "" "")
    (fun _ _ => Spawned).

(** A guest that is powered off and cannot be started. *)
Definition stuck_guest : World :=
  Posix.host [vbox; iso]
    (fun _ c =>
       if String.eqb (subcommand c) "showvminfo"
       then Exited 0 (vminfo "poweroff") ""
       else if String.eqb (subcommand c) "startvm"
       then Exited 1 "" "VBoxManage: error: VT-x is not available"
       else Exited 0 "" "")
    (fun _ _ => Spawned).

(** The info query names an IDE controller; the drive on port 1 refuses
    the medium (exit 1), the drive on port 0 takes it. *)
Definition port1_refuses : World :=
  Posix.host [vbox; iso]
    (fun _ c =>
       if String.eqb (subcommand c) "showvminfo"
       then Exited 0 ("storagecontrollername0=" ++ dquote ++ "IDE" ++ dquote)
                   ""
       else if String.eqb (subcommand c) "storageattach"
               && String.eqb (nth 6 (argv c) "") "1"
       then Exited 1 "" "VBoxManage: error: no drive attached"
       else Exited 0 "" "")
    (fun _ _ => Spawned).

(** The info query itself fails (the VM is not registered). *)
Definition info_query_fails : World :=
  Posix.host [vbox; iso]
    (fun _ c =>
       if String.eqb (subcommand c) "showvminfo"
       then Exited 1 "" "VBoxManage: error: could not find a registered machine"
       else Exited 0 "" "")
    (fun _ _ => Spawned).

(** The attach on port 1 hangs; the attach on port 0 would succeed. *)
Definition port1_hangs : World :=
  Posix.host [vbox; iso]
    (fun _ c =>
       if String.eqb (subcommand c) "storageattach"
          && String.eqb (nth 6 (argv c) "") "1"
       then TimedOut
       else Exited 0 "" "")
    (fun _ _ => Spawned).

(** The fixed path exists and its probe fails once (exit 1) before it
    answers; nothing is on PATH. *)
Definition fixed_path_flaky : World :=
  Posix.host [vbox_path]
    (fun k c =>
       if String.eqb (nth 0 (argv c) "") "VBoxManage" then Missing
       else if Nat.eqb k 0 then Exited 1 "" "not ready"
       else Exited 0 "7.0.14r161095" "")
    (fun _ _ => Spawned).

(** No VirtualBox anywhere: no candidate file, nothing on PATH. *)
Definition no_virtualbox : World :=
  Posix.host [] (fun _ _ => Missing) (fun _ _ => SpawnMissing).

(** The command line [svo web-01 --user alice]. *)
Definition svo_args : Args :=
  mkArgs a_svo "web-01" false false "alice" None "".

End Sample.

(* ================================================================== *)
(** ** Vocabulary of the invariants *)

(** Every command run in [evs] satisfies [P]. *)
Definition runs_satisfy (P : Cmd -> Prop) (evs : list Event) : Prop :=
  forall c, In (Run c) evs -> P c.

(** Whenever it is started, [m] only runs commands that satisfy [P]. *)
Definition keeps {A} (P : Cmd -> Prop) (m : M A) : Prop :=
  forall n, runs_satisfy P (events (m n)).

(** [m] never lets an exception escape. *)
Definition returns {A} (m : M A) : Prop :=
  forall n, exists a, value (m n) = inr a.


(** The executable of a command line. *)
Definition executable (c : Cmd) : string := nth 0 (argv c) "".

(** The candidates of the binary search, in the order they are tried. *)
Definition candidates : list string :=
  vbox_path :: "VBoxManage" :: common_paths.

(** A command of the orchestrator proper: the control binary [vbox] with
    a 30 or 60 second bound and nothing on its standard input, or [ssh]
    with a 30 second bound and the password on its standard input. *)
Definition orchestrator_cmd (vbox : string) (c : Cmd) : Prop :=
  (executable c = vbox /\ input c = None
   /\ (timeout c = 30%Z \/ timeout c = 60%Z))
  \/ (executable c = "ssh" /\ timeout c = 30%Z /\ input c <> None).

(** A version probe of one of the candidates. *)
Definition candidate_probe (c : Cmd) : Prop :=
  exists p, In p candidates /\ c = probe_cmd p.

(** The failures that the probes of the fixed path and of the common
    paths survive: a non-zero exit or a timeout. *)
Definition probe_survives (o : Outcome) : bool :=
  match o with
  | Exited rc _ _ => negb (rc =? 0)%Z
  | TimedOut => true
  | _ => false
  end.

(** The failures that the probe of the PATH-resolved name survives: a
    non-zero exit or a missing executable. *)
Definition path_probe_survives (o : Outcome) : bool :=
  match o with
  | Exited rc _ _ => negb (rc =? 0)%Z
  | Missing => true
  | _ => false
  end.

(* ================================================================== *)
(** ** Vocabulary of the parsers' properties *)

(** The last character of a string. *)
Fixpoint last_char (s : string) : option ascii :=
  match s with
  | EmptyString => None
  | String c EmptyString => Some c
  | String _ s' => last_char s'
  end.

(** The first character of a string. *)
Definition first_char (s : string) : option ascii :=
  match s with
  | EmptyString => None
  | String c _ => Some c
  end.

(** The line test of [get_vm_status]. *)
Definition is_state_line (line : string) : bool :=
  startswith "VMState=" line.

(** The line test of the controller search of
    [install_guest_additions]. *)
Definition names_controller (line : string) : bool :=
  contains "storagecontrollername" (lower line)
  && (contains "ide" (lower line) || contains "sata" (lower line)).

(* ================================================================== *)
(** ** class ColoredFormatter *)

(** The escape sequences of colorama that the formatter uses. *)
Record Colorama : Type := mkColorama {
  Fore_CYAN : string;
  Fore_GREEN : string;
  Fore_YELLOW : string;
  Fore_RED : string;
  Fore_MAGENTA : string;
  Fore_WHITE : string;
  Style_BRIGHT : string;
  Style_RESET_ALL : string
}.

(** What [format] reads of a [logging.LogRecord]: [record.levelname] and
    [record.getMessage()]. *)
Record LogRecord : Type := mkLogRecord {
  levelname : string;
  getMessage : string
}.

Record ColoredFormatter : Type := mkColoredFormatter {
  max_file_len : nat;
  max_func_len : nat;
  max_level_len : nat;
  colors : list (string * string)
}.

(** [d.get(key, default)] on a dict kept as an association list. *)
Fixpoint dict_get (d : list (string * string)) (key default : string)
  : string :=
  match d with
  | [] => default
  | (k, v) :: d' => if String.eqb k key then v else dict_get d' key default
  end.

(** [n] spaces. *)
Fixpoint spaces (n : nat) : string :=
  match n with
  | O => EmptyString
  | S n' => String " "%char (spaces n')
  end.

(** [f"{s:<{width}}"]: [s] left-aligned in a field of [width]. *)
Definition ljust (s : string) (width : nat) : string :=
  s ++ spaces (width - String.length s).

Section Formatter.

Variable ansi : Colorama.

(** [ColoredFormatter.__init__] *)
Definition ColoredFormatter_init : ColoredFormatter :=
  mkColoredFormatter 0 0 0
    [ ("DEBUG", Fore_CYAN ansi);
      ("INFO", Fore_GREEN ansi);
      ("WARNING", Fore_YELLOW ansi);
      ("ERROR", Fore_RED ansi);
      ("CRITICAL", Fore_MAGENTA ansi ++ Style_BRIGHT ansi) ].

(** [ColoredFormatter.format]: the formatter after the call, and the
    formatted line. *)
Definition format (self : ColoredFormatter) (record : LogRecord)
  : ColoredFormatter * string :=
  let level := levelname record in
  let self' :=
    mkColoredFormatter (max_file_len self) (max_func_len self)
      (Nat.max (max_level_len self) (String.length level))
      (colors self) in
  let color := dict_get (colors self') level (Fore_WHITE ansi) in
  let formatted :=
    "[" ++ color ++ ljust level (max_level_len self')
    ++ Style_RESET_ALL ansi ++ "] " ++ getMessage record in
  (self', formatted).

(** The lines of a sequence of records handed to one formatter. *)
Fixpoint format_all (self : ColoredFormatter) (records : list LogRecord)
  : ColoredFormatter * list string :=
  match records with
  | [] => (self, [])
  | record :: rest =>
      let (self', line) := format self record in
      let (self'', lines) := format_all self' rest in
      (self'', line :: lines)
  end.

End Formatter.

(** The longest level name among [records], and at least [width]. *)
Definition longest_level (width : nat) (records : list LogRecord) : nat :=
  fold_left (fun w r => Nat.max w (String.length (levelname r)))
            records width.

(* ================================================================== *)
(** ** main: the interactive choice of the VM

    [input()] reads the next line the user typed, taken from a list; at
    the end of the list it raises EOFError, which [main] does not catch.
    The [print] calls are left out. *)

(** How a prompt ends. *)
Inductive Prompted (A : Type) : Type :=
| Answered (a : A) (rest : list string)  (* the value, and the lines left *)
| EndOfInput                             (* EOFError out of [input()] *)
| BadNumber.                             (* ValueError out of [int()] *)

Arguments Answered {A} a rest.
Arguments EndOfInput {A}.
Arguments BadNumber {A}.

Definition is_ascii_digit (c : ascii) : bool :=
  let n := N_of_ascii c in ((48 <=? n) && (n <=? 57))%N.

(** The characters [str.isdigit] accepts, among the code points below
    256: the ten digits and the superscripts two, three and one. *)
Definition is_digit_char (c : ascii) : bool :=
  let n := N_of_ascii c in
  (is_ascii_digit c || (n =? 178) || (n =? 179) || (n =? 185))%N.

Fixpoint all_chars (p : ascii -> bool) (s : string) : bool :=
  match s with
  | EmptyString => true
  | String c s' => p c && all_chars p s'
  end.

(** [s.isdigit()] *)
Definition isdigit (s : string) : bool :=
  negb (PyStr.is_empty s) && all_chars is_digit_char s.

(** The value of a string of ASCII digits, read from the left. *)
Fixpoint decimal_value (acc : N) (s : string) : N :=
  match s with
  | EmptyString => acc
  | String c s' => decimal_value (10 * acc + (N_of_ascii c - 48))%N s'
  end.

Section Prompts.

(** The literals that [int()] refuses for their length alone (the
    interpreter's limit on the digits of an integer literal). *)
Variable int_refuses : string -> bool.

(** [int(s)] for an [s] that passed [isdigit]: [None] is ValueError. *)
Definition py_int (s : string) : option Z :=
  if all_chars is_ascii_digit s && negb (int_refuses s)
  then Some (Z.of_N (decimal_value 0 s))
  else None.

(** The loop that asks for a VM among [vms] ([vms] is not empty). *)
Fixpoint choose_vm (vms : list string) (inputs : list string)
  : Prompted string :=
  match inputs with
  | [] => EndOfInput
  | line :: rest =>
      let choice := PyStr.strip line in
      if isdigit choice then
        match py_int choice with
        | None => BadNumber
        | Some number =>
            let idx := (number - 1)%Z in
            if (0 <=? idx)%Z && (idx <? Z.of_nat (length vms))%Z
            then Answered (nth (Z.to_nat idx) vms EmptyString) rest
            else choose_vm vms rest
        end
      else if existsb (String.eqb choice) vms then Answered choice rest
      else choose_vm vms rest
  end.

(** The loop that asks for a VM name when no VM is known. *)
Fixpoint enter_vm_name (inputs : list string) : Prompted string :=
  match inputs with
  | [] => EndOfInput
  | line :: rest =>
      let vm_name := PyStr.strip line in
      if negb (PyStr.is_empty vm_name) then Answered vm_name rest
      else enter_vm_name rest
  end.

(** [if vms: ... else: ...] *)
Definition prompt_vm_name (vms : list string) (inputs : list string)
  : Prompted string :=
  match vms with
  | [] => enter_vm_name inputs
  | _ :: _ => choose_vm vms inputs
  end.

End Prompts.

(* ================================================================== *)
(** * Properties *)

(** ** Basic facts about the embedding *)

Lemma located_absent : located (mkVMManager None) = None.
Proof. reflexivity. Qed.

Lemma located_truthy self vbox :
  located self = Some vbox -> truthy (vboxmanage_path self) = true.
Proof.
  unfold located. destruct self as [[[|c p]|]]; simpl; congruence.
Qed.

Lemma bind_value {A B} (m : M A) (k : A -> M B) n a evs :
  m n = (inr a, evs) ->
  bind m k n
  = (fst (k a (invocations evs + n)),
     (evs ++ snd (k a (invocations evs + n)))%list).
Proof.
  intros Hm. unfold bind. rewrite Hm.
  now destruct (k a (invocations evs + n)).
Qed.

(** Unfolding of the monadic layer. *)
Ltac unfold_monad :=
  unfold bind, try_except, emit, ret, raise, any_exception,
    on_CalledProcessError, subprocess_run, subprocess_popen,
    value, events in *.

Lemma broadcast_message_to_vm_run W self vbox vm_name user message n :
  located self = Some vbox ->
  broadcast_message_to_vm W self vm_name user message n =
  (inr (exited_zero (respond W n (guestcontrol_cmd vbox vm_name user message))),
   [ Call (m_broadcast_message_to_vm vm_name user message);
     Run (guestcontrol_cmd vbox vm_name user message) ]).
Proof.
  intros Hloc. unfold broadcast_message_to_vm, guestcontrol_cmd.
  rewrite Hloc. unfold_monad. simpl.
  destruct (respond W n _) as [rc out err| | |]; simpl; try reflexivity.
  destruct (rc =? 0)%Z; reflexivity.
Qed.

Lemma stop_vm_run W self vbox vm_name graceful n :
  located self = Some vbox ->
  stop_vm W self vm_name graceful n =
  (inr (exited_zero (respond W (S n) (controlvm_cmd vbox vm_name graceful))),
   [ Call (m_stop_vm vm_name graceful);
     Call (m_broadcast_message_to_vm vm_name "nhu" "System will be shutdown");
     Run (guestcontrol_cmd vbox vm_name "nhu" "System will be shutdown");
     Run (controlvm_cmd vbox vm_name graceful) ]).
Proof.
  intros Hloc. unfold stop_vm. rewrite Hloc.
  unfold bind at 1. unfold emit at 1. cbv beta iota.
  unfold bind at 1.
  rewrite (broadcast_message_to_vm_run W _ _ _ _ _ _ Hloc). simpl.
  unfold controlvm_cmd, try_except, bind, subprocess_run, ret, any_exception.
  destruct graceful; simpl;
    destruct (respond W (S n) _) as [rc out err| | |]; simpl;
    try reflexivity; destruct (rc =? 0)%Z; reflexivity.
Qed.

(** [get_vm_ip] never raises; with a located binary it runs exactly the
    guest-property query. *)
Lemma get_vm_ip_run W self vbox vm_name n :
  located self = Some vbox ->
  exists ip,
    get_vm_ip W self vm_name n =
    (inr ip, [Call (m_get_vm_ip vm_name); Run (guestproperty_cmd vbox vm_name)]).
Proof.
  intros Hloc. unfold get_vm_ip, guestproperty_cmd. rewrite Hloc.
  unfold_monad. simpl.
  destruct (respond W n _) as [rc out err| | |]; simpl; eauto.
  destruct (rc =? 0)%Z; simpl; eauto.
  destruct (contains "No value set!" (strip out)); simpl; eauto.
  destruct (contains "Value: " (strip out)); simpl; eauto.
  unfold py_index.
  destruct (nth_error _ 1); unfold_monad; simpl; eauto.
Qed.

Lemma find_vm_state_total lines n :
  exists r, find_vm_state lines n = (r, []).
Proof.
  induction lines as [|line rest IH]; simpl.
  - unfold ret. eauto.
  - destruct (startswith "VMState=" line); [|exact IH].
    unfold py_index. destruct (nth_error _ 1); unfold_monad; simpl; eauto.
Qed.

(** [get_vm_status] never raises; with a located binary it runs exactly
    the info query. *)
Lemma get_vm_status_run W self vbox vm_name n :
  located self = Some vbox ->
  exists st,
    get_vm_status W self vm_name n =
    (inr st, [Call (m_get_vm_status vm_name); Run (showvminfo_cmd vbox vm_name)]).
Proof.
  intros Hloc. unfold get_vm_status, showvminfo_cmd. rewrite Hloc.
  unfold bind at 1. unfold emit at 1. cbv beta iota.
  unfold try_except, bind at 1, subprocess_run, any_exception, ret.
  simpl.
  destruct (respond W n _) as [rc out err| | |]; simpl; eauto.
  destruct (rc =? 0)%Z; simpl; eauto.
  destruct (find_vm_state_total (split newline (strip out)) (S n))
    as [[e|st] Hst]; rewrite Hst; simpl; eauto.
Qed.

Lemma start_vm_run W self vbox vm_name headless n :
  located self = Some vbox ->
  start_vm W self vm_name headless n =
  (inr (exited_zero (respond W n (startvm_cmd vbox vm_name headless))),
   [Call (m_start_vm vm_name headless); Run (startvm_cmd vbox vm_name headless)]).
Proof.
  intros Hloc. unfold start_vm, startvm_cmd. rewrite Hloc.
  unfold_monad. simpl.
  destruct (respond W n _) as [rc out err| | |]; simpl; try reflexivity.
  destruct (rc =? 0)%Z; reflexivity.
Qed.

(** In degraded mode a method only records its own entry. *)
Lemma degraded_runs W self vm_name user password message headless graceful n :
  located self = None ->
  list_vms W self n = (inr [], [Call m_list_vms])
  /\ start_vm W self vm_name headless n
     = (inr false, [Call (m_start_vm vm_name headless)])
  /\ stop_vm W self vm_name graceful n
     = (inr false, [Call (m_stop_vm vm_name graceful)])
  /\ get_vm_status W self vm_name n
     = (inr None, [Call (m_get_vm_status vm_name)])
  /\ get_vm_ip W self vm_name n = (inr None, [Call (m_get_vm_ip vm_name)])
  /\ install_guest_additions W self vm_name n
     = (inr false, [Call (m_install_guest_additions vm_name)])
  /\ broadcast_message_to_vm W self vm_name user message n
     = (inr false, [Call (m_broadcast_message_to_vm vm_name user message)])
  /\ send_message_to_vm W self vm_name user password message n
     = (inr false, [Call (m_send_message_to_vm vm_name user password message)])
  /\ open_terminal W self vm_name user n
     = (inr false, [Call (m_open_terminal vm_name user)]).
Proof.
  intros Hloc.
  unfold list_vms, start_vm, stop_vm, get_vm_status, get_vm_ip,
    install_guest_additions, broadcast_message_to_vm, send_message_to_vm,
    open_terminal.
  rewrite Hloc. repeat split; reflexivity.
Qed.

(* ================================================================== *)
(** ** Degraded mode *)

(** C9. When binary discovery has failed (no located-binary path), each of
    list, start, stop, status, ip, install-guest-additions, broadcast
    message, SSH message and open-terminal reports its failure value (the
    empty list, False or None) and invokes no external command. *)
Theorem degraded_mode_reports_failure_without_command
    W self vm_name user password message headless graceful n :
  located self = None ->
  reports_without_command (list_vms W self n) []
  /\ reports_without_command (start_vm W self vm_name headless n) false
  /\ reports_without_command (stop_vm W self vm_name graceful n) false
  /\ reports_without_command (get_vm_status W self vm_name n) None
  /\ reports_without_command (get_vm_ip W self vm_name n) None
  /\ reports_without_command (install_guest_additions W self vm_name n) false
  /\ reports_without_command
       (broadcast_message_to_vm W self vm_name user message n) false
  /\ reports_without_command
       (send_message_to_vm W self vm_name user password message n) false
  /\ reports_without_command (open_terminal W self vm_name user n) false.
Proof.
  intros Hloc.
  destruct (degraded_runs W self vm_name user password message
              headless graceful n Hloc)
    as (H1 & H2 & H3 & H4 & H5 & H6 & H7 & H8 & H9).
  rewrite H1, H2, H3, H4, H5, H6, H7, H8, H9.
  unfold reports_without_command. simpl. intuition reflexivity.
Qed.

Lemma degraded_mode_reports_failure_without_command_witness :
  located Sample.degraded = None
  /\ reports_without_command
       (stop_vm Sample.no_guest_tooling Sample.degraded "web-01" true 0) false
  /\ reports_without_command
       (list_vms Sample.no_guest_tooling Sample.degraded 0) [].
Proof.
  pose proof (degraded_mode_reports_failure_without_command
                Sample.no_guest_tooling Sample.degraded "web-01" "nhu"
                "secret" "hello" true true 0 located_absent) as H.
  split; [reflexivity|]. split; [apply H | apply H].
Defined.

(* ================================================================== *)
(** ** Stopping a VM *)

(** C2. With a located control binary, [stop_vm] always invokes the
    in-guest broadcast warning before the power-control command; both are
    always issued, and the result of [stop_vm] is decided by the power
    command alone: a failed warning neither prevents the power command nor
    changes the result. *)
Theorem stop_vm_warns_then_issues_power_command
    W self vbox vm_name graceful n :
  located self = Some vbox ->
  let warn := guestcontrol_cmd vbox vm_name "nhu" "System will be shutdown" in
  let power := controlvm_cmd vbox vm_name graceful in
  let r := stop_vm W self vm_name graceful n in
  events r =
    [ Call (m_stop_vm vm_name graceful);
      Call (m_broadcast_message_to_vm vm_name "nhu" "System will be shutdown");
      Run warn;
      Run power ]
  /\ (forall warned,
        value (broadcast_message_to_vm W self vm_name "nhu"
                 "System will be shutdown" n) = inr warned ->
        commands (events r) = [warn; power]
        /\ value r = inr (exited_zero (respond W (S n) power)))
  /\ (forall W',
        respond W' (S n) power = respond W (S n) power ->
        value (stop_vm W' self vm_name graceful n) = value r).
Proof.
  intros Hloc warn power r. subst r warn power.
  rewrite (stop_vm_run W _ _ _ _ _ Hloc).
  split; [reflexivity|]. split.
  - intros warned _. split; reflexivity.
  - intros W' HW'. rewrite (stop_vm_run W' _ _ _ _ _ Hloc).
    unfold value. simpl. now rewrite HW'.
Qed.

Lemma stop_vm_warns_then_issues_power_command_witness :
  located Sample.manager = Some Sample.vbox
  /\ value (broadcast_message_to_vm Sample.no_guest_tooling Sample.manager
              "web-01" "nhu" "System will be shutdown" 0) = inr false
  /\ value (stop_vm Sample.no_guest_tooling Sample.manager "web-01" true 0)
     = inr true.
Proof.
  split; [reflexivity|]. split; [reflexivity|].
  destruct (stop_vm_warns_then_issues_power_command
              Sample.no_guest_tooling Sample.manager Sample.vbox "web-01"
              true 0
              (eq_refl : located Sample.manager = Some Sample.vbox))
    as (_ & H & _).
  destruct (H false eq_refl) as [_ Hv]. exact Hv.
Defined.

(** C10. Whatever user, password and text the caller supplies, the pre-stop
    warning of the stop action is broadcast as user "nhu" with the text
    "System will be shutdown". *)
Theorem stop_warning_uses_fixed_user_and_text
    W vm_manager vbox vm gui_flag force_flag caller_user caller_password
    caller_text n :
  located vm_manager = Some vbox ->
  let args := mkArgs a_stop vm gui_flag force_flag caller_user
                caller_password caller_text in
  let graceful := negb force_flag in
  events (main_action W vm_manager args n) =
    [ Call (m_stop_vm vm graceful);
      Call (m_broadcast_message_to_vm vm "nhu" "System will be shutdown");
      Run (guestcontrol_cmd vbox vm "nhu" "System will be shutdown");
      Run (controlvm_cmd vbox vm graceful) ]
  /\ events (stop_vm W vm_manager vm graceful n)
     = events (main_action W vm_manager args n).
Proof.
  intros Hloc args graceful. subst args graceful.
  unfold main_action. rewrite (located_truthy _ _ Hloc). simpl.
  unfold bind. rewrite (stop_vm_run W _ _ _ _ _ Hloc). simpl.
  destruct (exited_zero _); simpl; split; reflexivity.
Qed.

Lemma stop_warning_uses_fixed_user_and_text_witness :
  located Sample.manager = Some Sample.vbox
  /\ commands
       (events
          (main_action Sample.no_guest_tooling Sample.manager
             (mkArgs a_stop "web-01" false true "alice" (Some "secret")
                "going down for maintenance") 0))
     = [ guestcontrol_cmd Sample.vbox "web-01" "nhu" "System will be shutdown";
         controlvm_cmd Sample.vbox "web-01" false ].
Proof.
  split; [reflexivity|].
  destruct (stop_warning_uses_fixed_user_and_text
              Sample.no_guest_tooling Sample.manager Sample.vbox "web-01"
              false true "alice" (Some "secret") "going down for maintenance" 0
              (eq_refl : located Sample.manager = Some Sample.vbox))
    as [H _].
  cbv zeta in H. rewrite H. reflexivity.
Defined.

(* ================================================================== *)
(** ** Messaging with the SSH fallback *)

(** [broadcast_message_to_vm] never raises and never enters the SSH path. *)
Lemma broadcast_message_to_vm_total W self vm_name user message n :
  exists ok evs,
    broadcast_message_to_vm W self vm_name user message n
    = (inr ok, Call (m_broadcast_message_to_vm vm_name user message) :: evs)
    /\ ssh_attempts evs = 0.
Proof.
  destruct (located self) as [vbox|] eqn:Hloc.
  - rewrite (broadcast_message_to_vm_run W _ _ _ _ _ _ Hloc).
    eexists _, _. split; [reflexivity|reflexivity].
  - unfold broadcast_message_to_vm. rewrite Hloc.
    exists false, []. split; reflexivity.
Qed.

(** With a located binary the SSH path resolves the IP first and runs
    [ssh] only when an address came back. *)
Lemma send_message_to_vm_run W self vbox vm_name user password message n :
  located self = Some vbox ->
  exists ok tail,
    send_message_to_vm W self vm_name user password message n
    = (inr ok,
       Call (m_send_message_to_vm vm_name user password message)
       :: Call (m_get_vm_ip vm_name)
       :: Run (guestproperty_cmd vbox vm_name) :: tail)
    /\ (tail = []
        \/ exists ip, tail = [Run (ssh_cmd user ip password message)]).
Proof.
  intros Hloc. unfold send_message_to_vm. rewrite Hloc.
  unfold bind at 1. unfold emit at 1. cbv beta iota.
  unfold try_except. unfold bind at 1.
  destruct (get_vm_ip_run W self vbox vm_name
              (invocations [Call (m_send_message_to_vm vm_name user password
                                    message)] + n) Hloc)
    as [ip Hip].
  rewrite Hip. cbv beta iota.
  destruct ip as [[|c ip]|]; simpl.
  - eexists _, []. split; [reflexivity|now left].
  - unfold_monad. simpl.
    destruct (respond W (S n) _) as [rc out err| | |]; simpl;
      try (eexists _, _; split; [reflexivity|right; eexists; reflexivity]).
    destruct (rc =? 0)%Z; simpl;
      eexists _, _; (split; [reflexivity|right; eexists; reflexivity]).
  - eexists _, []. split; [reflexivity|now left].
Qed.

(** Entering [send_message_to_vm] is recorded exactly once per call. *)
Lemma send_message_to_vm_total W self vm_name user password message n :
  exists ok evs,
    send_message_to_vm W self vm_name user password message n
    = (inr ok,
       Call (m_send_message_to_vm vm_name user password message) :: evs)
    /\ ssh_attempts evs = 0.
Proof.
  destruct (located self) as [vbox|] eqn:Hloc.
  - destruct (send_message_to_vm_run W self vbox vm_name user password message n
                Hloc) as (ok & tail & Hrun & Htail).
    rewrite Hrun. eexists _, _. split; [reflexivity|].
    destruct Htail as [->|[ip ->]]; reflexivity.
  - unfold send_message_to_vm. rewrite Hloc.
    exists false, []. split; reflexivity.
Qed.

(** The three ways the message action can go. *)
Lemma main_message_run W vm_manager args n :
  let warn := Call (m_broadcast_message_to_vm
                      (vm_name args) (user args) (text args)) in
  exists ok evs,
    broadcast_message_to_vm W vm_manager (vm_name args) (user args)
      (text args) n = (inr ok, warn :: evs)
    /\ ssh_attempts evs = 0
    /\ ((ok = true
         /\ main_message W vm_manager args n = (inr 0%Z, warn :: evs))
        \/ (ok = false /\ truthy (password args) = false
            /\ main_message W vm_manager args n = (inr 1%Z, warn :: evs))
        \/ (ok = false /\ truthy (password args) = true
            /\ exists ok' ssh evs',
                 is_ssh_call ssh = true /\ ssh_attempts evs' = 0
                 /\ main_message W vm_manager args n
                    = (inr (if ok' : bool then 0%Z else 1%Z),
                       warn :: evs ++ ssh :: evs')%list)).
Proof.
  intros warn. subst warn.
  destruct (broadcast_message_to_vm_total W vm_manager (vm_name args)
              (user args) (text args) n) as (ok & evs & Hb & Hevs).
  exists ok, evs. split; [exact Hb|]. split; [exact Hevs|].
  destruct ok.
  - left. split; [reflexivity|].
    unfold main_message, bind. rewrite Hb. simpl. unfold ret.
    now rewrite app_nil_r.
  - destruct (truthy (password args)) eqn:Hpw.
    + right; right. split; [reflexivity|]. split; [reflexivity|].
      destruct (send_message_to_vm_total W vm_manager (vm_name args)
                  (user args)
                  (match password args with Some p => p | None => "" end)
                  (text args)
                  (invocations
                     (Call (m_broadcast_message_to_vm (vm_name args)
                              (user args) (text args)) :: evs) + n))
        as (ok' & evs' & Hs & Hevs').
      unfold main_message, bind. rewrite Hb, Hpw.
      change (negb false && true) with true. cbv iota. rewrite Hs.
      eexists ok', _, evs'. split; [|split; [exact Hevs'|]].
      2:{ destruct ok'; unfold ret; simpl; rewrite app_nil_r; reflexivity. }
      reflexivity.
    + right; left. split; [reflexivity|]. split; [reflexivity|].
      unfold main_message, bind. rewrite Hb, Hpw. simpl. unfold ret.
      now rewrite app_nil_r.
Qed.

(** C1. The message action first attempts the guest-tooling broadcast.
    The SSH fallback is entered exactly when that attempt failed and a
    password is present (truthy: given and not empty), and then exactly
    once, so at most once overall.  When the broadcast fails and no
    password is present the action exits with status 1 without any SSH
    attempt; when the broadcast succeeds it exits with status 0. *)
Theorem message_tries_broadcast_then_ssh_at_most_once W vm_manager args n :
  let r := main_message W vm_manager args n in
  let b := broadcast_message_to_vm W vm_manager
             (vm_name args) (user args) (text args) n in
  exists ok rest,
    value b = inr ok
    /\ events r = (events b ++ rest)%list
    /\ hd_error (events r)
       = Some (Call (m_broadcast_message_to_vm
                       (vm_name args) (user args) (text args)))
    /\ ssh_attempts (events b) = 0
    /\ ssh_attempts (events r)
       = (if negb ok && truthy (password args) then 1 else 0)
    /\ ssh_attempts (events r) <= 1
    /\ (ok = false -> truthy (password args) = false ->
        value r = inr 1%Z /\ ssh_attempts (events r) = 0)
    /\ (ok = true -> value r = inr 0%Z /\ rest = []).
Proof.
  intros r b. subst r b.
  destruct (main_message_run W vm_manager args n)
    as (ok & evs & Hb & Hevs & Hcases).
  rewrite Hb. unfold value, events. simpl fst. simpl snd.
  destruct Hcases as [(-> & Hr)|[(-> & Hpw & Hr)|(-> & Hpw & Hr)]].
  - rewrite Hr. exists true, []. simpl. rewrite app_nil_r.
    unfold ssh_attempts in *. simpl. rewrite Hevs.
    repeat split; auto; discriminate.
  - rewrite Hr, Hpw. exists false, []. simpl. rewrite app_nil_r.
    unfold ssh_attempts in *. simpl. rewrite Hevs.
    repeat split; auto; discriminate.
  - destruct Hr as (ok' & ssh & evs' & Hssh & Hevs' & Hr).
    rewrite Hr, Hpw. exists false, (ssh :: evs'). simpl.
    unfold ssh_attempts in *. simpl.
    rewrite filter_app, length_app. simpl. rewrite Hssh. simpl.
    rewrite Hevs, Hevs'. simpl.
    repeat split; auto; discriminate.
Qed.

(* ================================================================== *)
(** ** Start a VM and open a terminal *)

(** The events of a status query: its own entry, then at most the info
    query. *)
Lemma get_vm_status_total W self vm_name n :
  exists st evs,
    get_vm_status W self vm_name n
    = (inr st, Call (m_get_vm_status vm_name) :: evs)
    /\ (evs = [] \/ exists c, evs = [Run c]).
Proof.
  destruct (located self) as [vbox|] eqn:Hloc.
  - destruct (get_vm_status_run W self vbox vm_name n Hloc) as [st Hst].
    rewrite Hst. eexists _, _. split; [reflexivity|]. right. eauto.
  - unfold get_vm_status. rewrite Hloc.
    exists None, []. split; [reflexivity|now left].
Qed.

Lemma start_vm_total W self vm_name headless n :
  exists ok evs,
    start_vm W self vm_name headless n
    = (inr ok, Call (m_start_vm vm_name headless) :: evs)
    /\ (evs = [] \/ exists c, evs = [Run c]).
Proof.
  destruct (located self) as [vbox|] eqn:Hloc.
  - rewrite (start_vm_run W _ _ _ _ _ Hloc).
    eexists _, _. split; [reflexivity|]. right. eauto.
  - unfold start_vm. rewrite Hloc.
    exists false, []. split; [reflexivity|now left].
Qed.

(** With a located binary [open_terminal] resolves the IP first and spawns
    the terminal only when an address came back. *)
Lemma open_terminal_run W self vbox vm_name user n :
  located self = Some vbox ->
  exists ok tail,
    open_terminal W self vm_name user n
    = (inr ok,
       Call (m_open_terminal vm_name user)
       :: Call (m_get_vm_ip vm_name)
       :: Run (guestproperty_cmd vbox vm_name) :: tail)
    /\ (tail = [] \/ exists ip, tail = [Popen (wt_cmd vm_name user ip)]).
Proof.
  intros Hloc. unfold open_terminal. rewrite Hloc.
  unfold bind at 1. unfold emit at 1. cbv beta iota.
  unfold try_except. unfold bind at 1.
  destruct (get_vm_ip_run W self vbox vm_name
              (invocations [Call (m_open_terminal vm_name user)] + n) Hloc)
    as [ip Hip].
  rewrite Hip. cbv beta iota.
  destruct ip as [[|c ip]|]; simpl.
  - eexists _, []. split; [reflexivity|now left].
  - unfold_monad. unfold wt_cmd. simpl.
    destruct (spawn W (S n) _); simpl;
      eexists _, _; (split; [reflexivity|right; eexists; reflexivity]).
  - eexists _, []. split; [reflexivity|now left].
Qed.

Lemma open_terminal_total W self vm_name user n :
  exists ok evs,
    open_terminal W self vm_name user n
    = (inr ok, Call (m_open_terminal vm_name user) :: evs)
    /\ forall p, p (m_get_vm_ip vm_name) = false -> calls p evs = 0.
Proof.
  destruct (located self) as [vbox|] eqn:Hloc.
  - destruct (open_terminal_run W self vbox vm_name user n Hloc)
      as (ok & tail & Hrun & Htail).
    rewrite Hrun. eexists _, _. split; [reflexivity|].
    intros p Hp. unfold calls.
    destruct Htail as [->|[ip ->]]; simpl; rewrite Hp; reflexivity.
  - unfold open_terminal. rewrite Hloc.
    exists false, []. split; [reflexivity|reflexivity].
Qed.

Lemma calls_app p evs evs' :
  calls p (evs ++ evs') = calls p evs + calls p evs'.
Proof. unfold calls. now rewrite filter_app, length_app. Qed.

Lemma popens_app evs evs' :
  popens (evs ++ evs') = popens evs + popens evs'.
Proof. unfold popens. now rewrite filter_app, length_app. Qed.

(** Counting calls and spawns in an event list built from known pieces. *)
Ltac count_events :=
  unfold calls, popens in *; simpl;
  rewrite ?filter_app, ?length_app; simpl;
  repeat match goal with
         | H : length (filter _ ?l) = _ |- context [filter _ ?l] =>
             rewrite H
         end;
  reflexivity.

(** The saga, step by step: the status query, the start when the VM is
    not running, the second status query, and the terminal only when the
    second query says "running". *)
Lemma start_vm_and_open_a_terminal_run W self vm_name user n :
  let q1 := get_vm_status W self vm_name n in
  let k1 := invocations (events q1) + n in
  let s := start_vm W self vm_name true k1 in
  forall st1, value q1 = inr st1 ->
  let k2 := if not_running st1 then invocations (events s) + k1 else k1 in
  let q2 := get_vm_status W self vm_name k2 in
  let k3 := invocations (events q2) + k2 in
  let t := open_terminal W self vm_name user k3 in
  forall st2, value q2 = inr st2 ->
  start_vm_and_open_a_terminal W self vm_name user n
  = (inr (if not_running st2 then 1%Z else 0%Z),
     Call (m_start_vm_and_open_a_terminal vm_name user)
     :: events q1
     ++ (if not_running st1 then events s else [])
     ++ events q2
     ++ (if not_running st2 then [] else events t))%list.
Proof.
  intros q1 k1 s st1 Hq1 k2 q2 k3 t st2 Hq2.
  subst q1 k1 s k2 q2 k3 t. unfold value, events in *.
  destruct (get_vm_status W self vm_name n) as [v1 e1] eqn:E1.
  cbn [fst snd] in *. subst v1.
  destruct (start_vm_total W self vm_name true (invocations e1 + n))
    as (ok & se & Hs & _).
  rewrite Hs in *. cbn [fst snd] in *.
  unfold start_vm_and_open_a_terminal.
  rewrite (bind_value _ _ n tt
             [Call (m_start_vm_and_open_a_terminal vm_name user)] eq_refl).
  change (invocations [Call (m_start_vm_and_open_a_terminal vm_name user)] + n)
    with n.
  rewrite (bind_value _ _ n _ _ E1).
  destruct (not_running st1) eqn:Hnr1.
  - rewrite (bind_value (start_vm W self vm_name true;; ret tt) _
               (invocations e1 + n) tt
               (Call (m_start_vm vm_name true) :: se)).
    2:{ rewrite (bind_value _ _ _ _ _ Hs). unfold ret. cbn [fst snd].
        now rewrite app_nil_r. }
    cbn [fst snd].
    remember (invocations (Call (m_start_vm vm_name true) :: se)
              + (invocations e1 + n)) as k2 eqn:Hk2.
    destruct (get_vm_status W self vm_name k2) as [v2 e2] eqn:E2.
    cbn [fst snd] in Hq2. subst v2.
    rewrite (bind_value _ _ _ _ _ E2). cbn [fst snd].
    destruct (not_running st2) eqn:Hnr2.
    + unfold ret. cbn [fst snd]. rewrite !app_nil_r. reflexivity.
    + destruct (open_terminal_total W self vm_name user
                  (invocations e2 + k2))
        as (ok' & te & Ht & _).
      rewrite (bind_value _ _ _ _ _ Ht). rewrite Ht. unfold ret.
      cbn [fst snd]. rewrite !app_nil_r. reflexivity.
  - rewrite (bind_value (ret tt) _ (invocations e1 + n) tt [] eq_refl).
    change (invocations [] + (invocations e1 + n)) with (invocations e1 + n).
    cbn [fst snd].
    remember (invocations e1 + n) as k2 eqn:Hk2.
    destruct (get_vm_status W self vm_name k2) as [v2 e2] eqn:E2.
    cbn [fst snd] in Hq2. subst v2.
    rewrite (bind_value _ _ _ _ _ E2). cbn [fst snd].
    destruct (not_running st2) eqn:Hnr2.
    + unfold ret. cbn [fst snd]. rewrite !app_nil_r. reflexivity.
    + destruct (open_terminal_total W self vm_name user
                  (invocations e2 + k2))
        as (ok' & te & Ht & _).
      rewrite (bind_value _ _ _ _ _ Ht). rewrite Ht. unfold ret.
      cbn [fst snd]. rewrite !app_nil_r. reflexivity.
Qed.

Lemma not_running_false st :
  not_running st = false <-> st = Some "running".
Proof.
  destruct st as [s|]; simpl; [|split; discriminate].
  destruct (String.eqb_spec s "running") as [->|Hne]; simpl.
  - split; reflexivity.
  - split; [discriminate|]. intros [= Hs]. contradiction.
Qed.

Lemma not_running_true st :
  not_running st = true <-> st <> Some "running".
Proof.
  rewrite <- not_running_false. destruct (not_running st); split;
    congruence.
Qed.

(** C3. The saga queries the live status first.  When that status is
    "running", [start_vm] is never entered; otherwise it is entered once,
    headless, right after the first query.  The status is then queried
    again: when it is still not "running" the saga returns its failure
    code 1 and neither enters [open_terminal] nor spawns a terminal; only
    when it is "running" is [open_terminal] entered (once), and the saga
    returns 0. *)
Theorem start_and_open_terminal_saga W self vm_name user n :
  let r := start_vm_and_open_a_terminal W self vm_name user n in
  let q1 := get_vm_status W self vm_name n in
  let k1 := invocations (events q1) + n in
  let s := start_vm W self vm_name true k1 in
  exists st1 st2 k2,
    value q1 = inr st1
    /\ k2 = (if not_running st1 then invocations (events s) + k1 else k1)
    /\ value (get_vm_status W self vm_name k2) = inr st2
    /\ (exists rest,
          events r
          = (Call (m_start_vm_and_open_a_terminal vm_name user)
             :: events q1 ++ rest)%list)
    /\ calls is_get_vm_status (events r) = 2
    /\ (st1 = Some "running" ->
        calls is_start_vm (events r) = 0
        /\ exists rest,
             events r
             = (Call (m_start_vm_and_open_a_terminal vm_name user)
                :: events q1
                ++ events (get_vm_status W self vm_name k2) ++ rest)%list)
    /\ (st1 <> Some "running" ->
        calls is_start_vm (events r) = 1
        /\ exists rest,
             events r
             = (Call (m_start_vm_and_open_a_terminal vm_name user)
                :: events q1
                ++ (Call (m_start_vm vm_name true) :: tl (events s))
                ++ events (get_vm_status W self vm_name k2) ++ rest)%list)
    /\ (st2 <> Some "running" ->
        value r = inr 1%Z
        /\ calls is_open_terminal (events r) = 0
        /\ popens (events r) = 0)
    /\ (st2 = Some "running" ->
        value r = inr 0%Z
        /\ calls is_open_terminal (events r) = 1
        /\ In (Call (m_open_terminal vm_name user)) (events r)).
Proof.
  intros r q1 k1 s.
  destruct (get_vm_status_total W self vm_name n) as (st1 & e1 & Hq1 & He1).
  assert (Hv1 : value q1 = inr st1) by (subst q1; now rewrite Hq1).
  set (k2 := if not_running st1 then invocations (events s) + k1 else k1).
  destruct (get_vm_status_total W self vm_name k2) as (st2 & e2 & Hq2 & He2).
  assert (Hv2 : value (get_vm_status W self vm_name k2) = inr st2)
    by now rewrite Hq2.
  pose proof (start_vm_and_open_a_terminal_run W self vm_name user n
                st1 Hv1 st2 Hv2) as Hrun.
  fold r in Hrun. fold q1 k1 s k2 in Hrun.
  destruct (start_vm_total W self vm_name true k1) as (ok & se & Hs & Hse).
  fold s in Hs.
  destruct (open_terminal_total W self vm_name user
              (invocations (events (get_vm_status W self vm_name k2)) + k2))
    as (okt & te & Ht & Hte).
  pose proof (Hte is_open_terminal eq_refl) as Hte1.
  pose proof (Hte is_start_vm eq_refl) as Hte2.
  pose proof (Hte is_get_vm_status eq_refl) as Hte3.
  clear Hte.
  exists st1, st2, k2.
  split; [exact Hv1|]. split; [reflexivity|]. split; [exact Hv2|].
  rewrite Hrun. clear Hrun.
  rewrite Ht. clear Ht. rewrite Hq2. rewrite Hs. subst q1. rewrite Hq1.
  unfold value, events. cbn [fst snd].
  assert (Hin : In (Call (m_open_terminal vm_name user))
                  (Call (m_open_terminal vm_name user) :: te))
    by now left.
  split; [eexists; reflexivity|].
  split.
  { destruct (not_running st1), (not_running st2);
      destruct He1 as [->|[c1 ->]], He2 as [->|[c2 ->]],
               Hse as [->|[c3 ->]]; count_events. }
  split.
  { intros Hrun1. apply not_running_false in Hrun1. rewrite Hrun1.
    split; [|eexists; rewrite app_nil_l; reflexivity].
    destruct (not_running st2);
      destruct He1 as [->|[c1 ->]], He2 as [->|[c2 ->]]; count_events. }
  split.
  { intros Hrun1. apply not_running_true in Hrun1. rewrite Hrun1.
    split; [|eexists; reflexivity].
    destruct (not_running st2);
      destruct He1 as [->|[c1 ->]], He2 as [->|[c2 ->]],
               Hse as [->|[c3 ->]]; count_events. }
  split.
  { intros Hrun2. apply not_running_true in Hrun2. rewrite Hrun2.
    split; [reflexivity|].
    split; destruct (not_running st1);
      destruct He1 as [->|[c1 ->]], He2 as [->|[c2 ->]],
               Hse as [->|[c3 ->]]; count_events. }
  intros Hrun2. apply not_running_false in Hrun2. rewrite Hrun2.
  split; [reflexivity|]. split.
  - destruct (not_running st1);
      destruct He1 as [->|[c1 ->]], He2 as [->|[c2 ->]],
               Hse as [->|[c3 ->]]; count_events.
  - right. apply in_or_app. right. apply in_or_app. right.
    apply in_or_app. right. exact Hin.
Qed.

(* ================================================================== *)
(** ** Strings *)

Lemma contains_cut sub s :
  contains sub s = true -> exists a b, cut sub s = Some (a, b).
Proof.
  unfold contains. destruct (cut sub s) as [[a b]|]; [eauto|discriminate].
Qed.

Lemma contains_false_cut sub s :
  contains sub s = false -> cut sub s = None.
Proof.
  unfold contains. destruct (cut sub s) as [[a b]|]; [discriminate|auto].
Qed.

(** The element of index 1 of a split: the text between the first and
    the second separator. *)
Lemma split_index_1 sep s a b :
  cut sep s = Some (a, b) ->
  nth_error (split sep s) 1
  = Some (match cut sep b with Some (v, _) => v | None => b end).
Proof.
  intros Hcut. unfold split. cbn [split_fuel]. rewrite Hcut.
  cbn [nth_error]. destruct s as [|c s'].
  - destruct sep as [|x sep']; simpl in Hcut; [|discriminate].
    injection Hcut as <- <-. reflexivity.
  - cbn [String.length split_fuel].
    destruct (cut sep b) as [[v w]|]; reflexivity.
Qed.

Lemma split_index_1_field sep s :
  contains sep s = true ->
  exists v, field_after sep s = Some v
            /\ nth_error (split sep s) 1 = Some v.
Proof.
  intros Hc. destruct (contains_cut _ _ Hc) as (a & b & Hcut).
  unfold field_after. rewrite (split_index_1 _ _ _ _ Hcut), Hcut. eauto.
Qed.

Lemma rstrip_by_empty p s :
  rstrip_by p s = "" -> forall sep a b, cut (String sep "") s = Some (a, b) ->
  p sep = true.
Proof.
  induction s as [|c s IH]; simpl; intros Hr sep a b Hcut; [discriminate|].
  destruct (rstrip_by p s) eqn:Hrs; [|discriminate].
  destruct (p c) eqn:Hpc; [|discriminate].
  destruct (Ascii.eqb_spec sep c) as [->|Hne]; [exact Hpc|].
  destruct (cut (String sep "") s) as [[a' b']|] eqn:Hc; [|discriminate].
  eapply IH; eauto.
Qed.

Lemma lstrip_by_cut p s sep :
  p sep = false ->
  forall a b, cut (String sep "") s = Some (a, b) ->
  exists a', cut (String sep "") (lstrip_by p s) = Some (a', b).
Proof.
  intros Hp. induction s as [|c s IH]; simpl; intros a b Hcut;
    [discriminate|].
  destruct (Ascii.eqb_spec sep c) as [->|Hne].
  - rewrite Hp. simpl. rewrite Ascii.eqb_refl. injection Hcut as _ <-. eauto.
  - destruct (cut (String sep "") s) as [[a0 b0]|] eqn:Hc; [|discriminate].
    injection Hcut as _ <-.
    destruct (p c).
    + eapply IH; reflexivity.
    + simpl. destruct (Ascii.eqb_spec sep c); [contradiction|].
      rewrite Hc. eauto.
Qed.

(** A line that is blank once stripped holds no double quote. *)
Lemma blank_line_no_quote line :
  is_empty (strip line) = true -> contains dquote line = false.
Proof.
  intros Hblank. unfold contains.
  destruct (cut dquote line) as [[a b]|] eqn:Hcut; [|reflexivity].
  exfalso.
  destruct (lstrip_by_cut is_space line dquote_char eq_refl a b Hcut)
    as [a' Hcut'].
  unfold strip, strip_by in Hblank.
  destruct (rstrip_by is_space (lstrip_by is_space line)) eqn:Hr;
    [|discriminate].
  pose proof (rstrip_by_empty is_space _ Hr dquote_char a' b Hcut') as Hsp.
  discriminate.
Qed.

(* ================================================================== *)
(** ** Listing the VMs *)

Lemma collect_vm_names_run lines vm_names n :
  collect_vm_names lines vm_names n
  = (inr (vm_names ++ names_after_quote lines)%list, []).
Proof.
  revert vm_names. induction lines as [|line rest IH]; intros vm_names.
  - simpl. unfold ret. now rewrite app_nil_r.
  - cbn [collect_vm_names names_after_quote flat_map].
    fold (names_after_quote rest).
    destruct (is_empty (strip line)) eqn:Hblank; cbn [negb].
    + rewrite IH.
      pose proof (blank_line_no_quote line Hblank) as Hq.
      unfold field_after. rewrite (contains_false_cut _ _ Hq). reflexivity.
    + destruct (contains dquote line) eqn:Hq.
      * destruct (split_index_1_field _ _ Hq) as (v & Hf & Hnth).
        rewrite Hf. unfold py_index. rewrite Hnth.
        unfold bind, ret. cbn [invocations Nat.add]. rewrite IH.
        now rewrite <- app_assoc.
      * rewrite IH. unfold field_after.
        now rewrite (contains_false_cut _ _ Hq).
Qed.

Lemma list_vms_run W self vbox n :
  located self = Some vbox ->
  list_vms W self n
  = (inr (match respond W n (list_cmd vbox) with
          | Exited rc out _ =>
              if (rc =? 0)%Z then names_after_quote (output_lines out)
              else []
          | _ => []
          end),
     [Call m_list_vms; Run (list_cmd vbox)]).
Proof.
  intros Hloc. unfold list_vms, list_cmd. rewrite Hloc.
  unfold bind at 1. unfold emit at 1. cbv beta iota.
  unfold try_except, bind, subprocess_run, any_exception, ret.
  cbn [invocations is_invocation Nat.add].
  destruct (respond W n _) as [rc out err| | |];
    cbn -[split strip Z.eqb]; try reflexivity.
  destruct (rc =? 0)%Z; cbn -[split strip]; [|reflexivity].
  rewrite collect_vm_names_run. reflexivity.
Qed.

Lemma names_after_quote_closed lines :
  forallb quotes_closed lines = true ->
  names_after_quote lines = parseVmList lines.
Proof.
  induction lines as [|line rest IH]; [reflexivity|].
  cbn [forallb]. intros [Hline Hrest]%andb_prop.
  cbn [names_after_quote parseVmList flat_map].
  fold (names_after_quote rest). fold (parseVmList rest).
  rewrite (IH Hrest). f_equal.
  unfold quotes_closed, field_after, first_quoted in *.
  destruct (cut dquote line) as [[a b]|]; [|reflexivity].
  destruct (cut dquote b) as [[v w]|]; [reflexivity|discriminate].
Qed.

(** C8 (as amended).  When the list command exits 0, [list_vms] returns
    one name per line of the trimmed output that contains a double quote,
    in line order: the text between the first double quote and the next
    one, or the rest of the line when the quote is never closed; lines
    without a double quote (blank lines among them) are skipped.  On the
    outputs where every quote is closed this is parseVmList, the first
    quoted token of each line.  On any invocation failure (non-zero exit,
    timeout, launch error) the result is the empty list. *)
Theorem list_vms_names_in_line_order W self vbox n :
  located self = Some vbox ->
  let o := respond W n (list_cmd vbox) in
  let names := value (list_vms W self n) in
  (forall rc out err, o = Exited rc out err -> rc = 0%Z ->
     names = inr (names_after_quote (output_lines out))
     /\ (forall before after,
           output_lines out = (before ++ after)%list ->
           names = inr (names_after_quote before
                        ++ names_after_quote after)%list)
     /\ (forallb quotes_closed (output_lines out) = true ->
         names = inr (parseVmList (output_lines out))))
  /\ (exited_zero o = false -> names = inr [])
  /\ commands (events (list_vms W self n)) = [list_cmd vbox].
Proof.
  intros Hloc o names. subst o names.
  rewrite (list_vms_run W _ _ _ Hloc). unfold value, events. cbn [fst snd].
  split; [|split; [|reflexivity]].
  - intros rc out err Ho ->. rewrite Ho.
    change (0 =? 0)%Z with true. cbv iota.
    split; [reflexivity|]. split.
    + intros before after Hlines. rewrite Hlines. unfold names_after_quote.
      now rewrite flat_map_app.
    + intros Hclosed. now rewrite (names_after_quote_closed _ Hclosed).
  - intros Hfail. destruct (respond W n _) as [rc out err| | |];
      try reflexivity.
    cbn in Hfail. now rewrite Hfail.
Qed.

Lemma list_vms_names_in_line_order_witness :
  located Sample.manager = Some Sample.vbox
  /\ value (list_vms (Sample.answering Sample.two_vms) Sample.manager 0)
     = inr (parseVmList (output_lines Sample.two_vms))
  /\ parseVmList (output_lines Sample.two_vms) = ["web-01"; "db-01"].
Proof.
  split; [reflexivity|]. split; [|reflexivity].
  destruct (list_vms_names_in_line_order
              (Sample.answering Sample.two_vms) Sample.manager Sample.vbox 0
              eq_refl) as [H _].
  destruct (H 0%Z Sample.two_vms "" eq_refl eq_refl) as (_ & _ & Hclosed).
  apply Hclosed. reflexivity.
Defined.

(** C8, as stated, fails: a line whose double quote is never closed holds
    no quoted token, yet [list_vms] returns a name for it. *)
Lemma list_vms_unclosed_quote_yields_name :
  first_quoted Sample.unclosed = None
  /\ parseVmList (output_lines Sample.unclosed) = []
  /\ value (list_vms (Sample.answering Sample.unclosed) Sample.manager 0)
     = inr ["stale"].
Proof. repeat split; reflexivity. Qed.

(* ================================================================== *)
(** ** The guest IP *)

Lemma get_vm_ip_exited_zero W self vbox vm_name n out err :
  located self = Some vbox ->
  respond W n (guestproperty_cmd vbox vm_name) = Exited 0 out err ->
  value (get_vm_ip W self vm_name n)
  = inr (if contains "No value set!" (strip out) then None
         else match field_after "Value: " (strip out) with
              | Some v => Some (strip v)
              | None => None
              end).
Proof.
  intros Hloc Ho. unfold get_vm_ip. rewrite Hloc.
  unfold bind at 1. unfold emit at 1. cbv beta iota.
  unfold try_except, bind at 1, subprocess_run.
  cbn [invocations is_invocation Nat.add].
  fold (guestproperty_cmd vbox vm_name). rewrite Ho.
  change (true && negb (0 =? 0)%Z) with false. cbv iota.
  cbn [stdout invocations is_invocation Nat.add].
  destruct (contains "No value set!" (strip out)); [reflexivity|].
  destruct (contains "Value: " (strip out)) eqn:Hv.
  - destruct (split_index_1_field _ _ Hv) as (v & Hf & Hnth).
    rewrite Hf. unfold py_index. rewrite Hnth. reflexivity.
  - unfold field_after. rewrite (contains_false_cut _ _ Hv). reflexivity.
Qed.

(** C6 (as amended).  On the output of a guest-property query that exited
    0, [get_vm_ip] returns None when the trimmed output contains the marker
    "No value set!", and None as well when it lacks "Value: " (the two
    cases give the same return value); otherwise it returns, trimmed, the
    text that follows the first "Value: " up to the next "Value: " or the
    end of the output. *)
Theorem get_vm_ip_parses_value W self vbox vm_name n out err :
  located self = Some vbox ->
  respond W n (guestproperty_cmd vbox vm_name) = Exited 0 out err ->
  let output := strip out in
  let ip := value (get_vm_ip W self vm_name n) in
  (contains "No value set!" output = true -> ip = inr None)
  /\ (contains "Value: " output = false -> ip = inr None)
  /\ (contains "No value set!" output = false ->
      contains "Value: " output = true ->
      exists v, field_after "Value: " output = Some v
                /\ ip = inr (Some (strip v))).
Proof.
  intros Hloc Ho output ip. subst output ip.
  rewrite (get_vm_ip_exited_zero W self vbox vm_name n out err Hloc Ho).
  split; [|split].
  - intros ->. reflexivity.
  - intros Hv. unfold field_after. rewrite (contains_false_cut _ _ Hv).
    now destruct (contains "No value set!" (strip out)).
  - intros -> Hv. destruct (split_index_1_field _ _ Hv) as (v & Hf & _).
    rewrite Hf. eauto.
Qed.

Lemma get_vm_ip_parses_value_witness :
  located Sample.manager = Some Sample.vbox
  /\ value (get_vm_ip (Sample.answering "Value: 10.0.2.15") Sample.manager
              "web-01" 0) = inr (Some "10.0.2.15").
Proof.
  split; [reflexivity|].
  destruct (get_vm_ip_parses_value
              (Sample.answering "Value: 10.0.2.15") Sample.manager
              Sample.vbox "web-01" 0 "Value: 10.0.2.15" "" eq_refl eq_refl)
    as (_ & _ & H).
  destruct (H eq_refl eq_refl) as (v & Hf & Hip).
  injection Hf as <-. exact Hip.
Defined.

(** C6, as stated, fails twice: the marker and a parse failure give the
    same result, and the text returned stops at a second "Value: ". *)
Lemma get_vm_ip_marker_same_as_parse_failure :
  let ip out :=
    value (get_vm_ip (Sample.answering out) Sample.manager "web-01" 0) in
  contains "Value: " (strip "unexpected text") = false
  /\ ip "No value set!" = ip "unexpected text"
  /\ ip "Value: 10.0.2.15 Value: 10.0.2.16" = inr (Some "10.0.2.15").
Proof. repeat split; reflexivity. Qed.

(* ================================================================== *)
(** ** Locating the control binary *)

(** The probes of the fixed path and of the common paths catch a timeout:
    an unusable common path is skipped and the search goes on. *)
Lemma probe_common_skips_unusable W path rest n :
  path_exists W path = true ->
  exited_zero (respond W n (probe_cmd path)) = false ->
  (respond W n (probe_cmd path) = TimedOut
   \/ exists rc out err,
        respond W n (probe_cmd path) = Exited rc out err) ->
  probe_common W (path :: rest) n
  = (fst (probe_common W rest (S n)),
     Run (probe_cmd path) :: snd (probe_common W rest (S n))).
Proof.
  intros Hex Hfail Hkind. cbn [probe_common]. rewrite Hex.
  unfold bind at 1, try_except, probe, bind at 1, subprocess_run.
  fold (probe_cmd path).
  destruct Hkind as [Ht|(rc & out & err & He)].
  - rewrite Ht. cbn [probe_failed ret invocations is_invocation Nat.add app].
    now destruct (probe_common W rest (S n)).
  - rewrite He in *. cbn in Hfail. rewrite Hfail.
    cbn [andb negb probe_failed ret invocations is_invocation Nat.add app].
    now destruct (probe_common W rest (S n)).
Qed.

(** The probe of the PATH-resolved name does not catch a timeout: the
    whole search ends there. *)
Lemma find_vboxmanage_path_timeout W n :
  path_exists W vbox_path = false ->
  respond W n (probe_cmd "VBoxManage") = TimedOut ->
  find_vboxmanage W n
  = (inr None, [Call m_find_vboxmanage; Run (probe_cmd "VBoxManage")]).
Proof.
  intros Hex Ht. unfold find_vboxmanage. rewrite Hex.
  unfold bind at 1. unfold emit at 1. cbv beta iota.
  unfold try_except at 1. unfold bind at 1. unfold ret at 1.
  cbv beta iota. unfold bind at 1. unfold try_except at 1.
  unfold probe, bind at 1, subprocess_run.
  cbn [invocations is_invocation Nat.add].
  fold (probe_cmd "VBoxManage"). rewrite Ht. reflexivity.
Qed.

(** C5 fails on the code.  On a host where the PATH-resolved name hangs
    while [/usr/bin/VBoxManage] exists and answers its probe, the search
    ends with None after the single PATH probe; had the PATH probe exited
    non-zero, or had a common path hung instead, the search would have
    gone on to the remaining candidates. *)
Theorem find_vboxmanage_path_timeout_is_fatal :
  path_exists Sample.path_probe_hangs Sample.vbox = true
  /\ (forall k, exited_zero (respond Sample.path_probe_hangs k
                               (probe_cmd Sample.vbox)) = true)
  /\ find_vboxmanage Sample.path_probe_hangs 0
     = (inr None,
        [Call m_find_vboxmanage; Run (probe_cmd "VBoxManage")])
  /\ value (find_vboxmanage Sample.path_probe_fails 0)
     = inr (Some Sample.vbox)
  /\ value (find_vboxmanage Sample.common_path_hangs 0)
     = inr (Some "/usr/local/bin/VBoxManage").
Proof.
  split; [reflexivity|]. split; [intros k; reflexivity|].
  split; [|split; reflexivity].
  apply find_vboxmanage_path_timeout; reflexivity.
Qed.

(* ================================================================== *)
(** ** The exit status *)

(** The [svo] branch of [main] reads the saga's 0 (success) as a failure
    and its 1 (failure) as a success. *)
Lemma main_action_svo_inverts W vm_manager vbox vm gui_flag force_flag
    usr pw txt n code evs :
  located vm_manager = Some vbox ->
  start_vm_and_open_a_terminal W vm_manager vm usr n = (inr code, evs) ->
  main_action W vm_manager
    (mkArgs a_svo vm gui_flag force_flag usr pw txt) n
  = (inr (if (code =? 0)%Z then 1%Z else 0%Z), evs).
Proof.
  intros Hloc Hrun. unfold main_action.
  rewrite (located_truthy _ _ Hloc). cbn [negb action vm_name user].
  rewrite (bind_value _ _ _ _ _ Hrun).
  destruct (code =? 0)%Z; unfold ret; cbn [fst snd];
    now rewrite app_nil_r.
Qed.

(** C7 fails on the code.  With a running guest the saga succeeds (it
    returns 0 and the terminal is spawned), yet the process exits with
    status 1; with a guest that cannot be started the saga fails (it
    returns 1), yet the process exits with status 0. *)
Theorem svo_exit_status_is_inverted :
  (value (start_vm_and_open_a_terminal Sample.running_guest
            (mkVMManager (Some "VBoxManage")) "web-01" "alice" 1)
   = inr 0%Z
   /\ popens (events (main Sample.running_guest Sample.svo_args 0)) = 1
   /\ value (main Sample.running_guest Sample.svo_args 0) = inr 1%Z)
  /\ (value (start_vm_and_open_a_terminal Sample.stuck_guest
               (mkVMManager (Some "VBoxManage")) "web-01" "alice" 1)
      = inr 1%Z
      /\ popens (events (main Sample.stuck_guest Sample.svo_args 0)) = 0
      /\ value (main Sample.stuck_guest Sample.svo_args 0) = inr 0%Z).
Proof. repeat split; vm_compute; reflexivity. Qed.

(* ================================================================== *)
(** ** Installing the guest additions *)

Lemma find_controller_pure lines n :
  find_controller lines n = (fst (find_controller lines 0), []).
Proof.
  induction lines as [|line rest IH]; [reflexivity|].
  cbn [find_controller].
  destruct (contains "storagecontrollername" (lower line)
            && (contains "ide" (lower line) || contains "sata" (lower line)));
    [|exact IH].
  unfold py_index. destruct (nth_error _ 1); reflexivity.
Qed.

Lemma subprocess_run_checked W args inp tmo n out err :
  respond W n (mkCmd args inp tmo) = Exited 0 out err ->
  subprocess_run W args inp tmo true n
  = (inr (mkCompleted 0 out err), [Run (mkCmd args inp tmo)]).
Proof. intros Ho. unfold subprocess_run. now rewrite Ho. Qed.

(** The saga once the medium is there, the info query has exited 0 and
    the controller line, if any, could be read. *)
Lemma install_guest_additions_run W self vbox vm_name n out err found :
  located self = Some vbox ->
  path_exists W (guest_additions_iso W vbox) = true ->
  respond W n (showvminfo_cmd vbox vm_name) = Exited 0 out err ->
  value (find_controller (split newline out) 0) = inr found ->
  let iso := guest_additions_iso W vbox in
  let ctl := controller_of found in
  let info := showvminfo_cmd vbox vm_name in
  let port1 := attach_cmd vbox vm_name ctl "1" iso in
  let port0 := attach_cmd vbox vm_name ctl "0" iso in
  let empty := attach_cmd vbox vm_name ctl "1" "emptydrive" in
  let o1 := respond W (1 + n) port1 in
  let o0 := respond W (2 + n) port0 in
  let oe := respond W (3 + n) empty in
  let retry := respond W (4 + n) port1 in
  let entry := Call (m_install_guest_additions vm_name) in
  install_guest_additions W self vm_name n
  = if exited_zero o1 then (inr true, [entry; Run info; Run port1])
    else if no_exit o1 then (inr false, [entry; Run info; Run port1])
    else if exited_zero o0
    then (inr true, [entry; Run info; Run port1; Run port0])
    else if no_exit o0
    then (inr false, [entry; Run info; Run port1; Run port0])
    else if exited_zero oe
    then (inr (exited_zero retry),
          [entry; Run info; Run port1; Run port0; Run empty; Run port1])
    else (inr false, [entry; Run info; Run port1; Run port0; Run empty]).
Proof.
  intros Hloc Hiso Hinfo Hfound iso ctl info port1 port0 empty o1 o0 oe
    retry entry.
  unfold install_guest_additions. rewrite Hloc.
  unfold bind at 1. unfold emit at 1. cbv beta iota.
  change (invocations [Call (m_install_guest_additions vm_name)] + n)
    with n.
  cbv zeta. fold (guest_additions_iso W vbox). rewrite Hiso. cbn [negb].
  unfold try_except at 1. unfold bind at 1.
  rewrite (subprocess_run_checked W _ None 30 n out err Hinfo).
  cbv beta iota. cbn [stdout invocations is_invocation Nat.add].
  assert (Hfc : find_controller (split newline out) (S n)
                = (inr found, [])).
  { rewrite find_controller_pure. unfold value in Hfound.
    now rewrite Hfound. }
  unfold bind at 1. rewrite Hfc. cbv beta iota.
  cbn [invocations Nat.add app].
  fold (controller_of found).
  subst iso ctl info port1 port0 empty o1 o0 oe retry entry.
  unfold try_ports, bind, try_except, subprocess_run, on_CalledProcessError,
    any_exception, ret, attach_cmd, showvminfo_cmd.
  cbn [invocations is_invocation Nat.add app fst snd].
  destruct (respond W (S n) _) as [rc1 out1 err1| | |];
    cbn [exited_zero no_exit andb negb fst snd app invocations
         is_invocation Nat.add]; try reflexivity.
  destruct (rc1 =? 0)%Z;
    cbn [exited_zero no_exit andb negb fst snd app invocations
         is_invocation Nat.add]; [reflexivity|].
  destruct (respond W (S (S n)) _) as [rc0 out0 err0| | |];
    cbn [exited_zero no_exit andb negb fst snd app invocations
         is_invocation Nat.add]; try reflexivity.
  destruct (rc0 =? 0)%Z;
    cbn [exited_zero no_exit andb negb fst snd app invocations
         is_invocation Nat.add]; [reflexivity|].
  destruct (respond W (S (S (S n))) _) as [rce oute erre| | |];
    cbn [exited_zero no_exit andb negb fst snd app invocations
         is_invocation Nat.add]; try reflexivity.
  destruct (rce =? 0)%Z;
    cbn [exited_zero no_exit andb negb fst snd app invocations
         is_invocation Nat.add]; [|reflexivity].
  destruct (respond W (S (S (S (S n)))) _) as [rcr outr errr| | |];
    cbn [exited_zero no_exit andb negb fst snd app invocations
         is_invocation Nat.add]; try reflexivity.
  destruct (rcr =? 0)%Z; reflexivity.
Qed.

Lemma install_guest_additions_no_medium W self vbox vm_name n :
  located self = Some vbox ->
  path_exists W (guest_additions_iso W vbox) = false ->
  install_guest_additions W self vm_name n
  = (inr false, [Call (m_install_guest_additions vm_name)]).
Proof.
  intros Hloc Hiso. unfold install_guest_additions. rewrite Hloc.
  unfold bind at 1. unfold emit at 1. cbv beta iota zeta.
  fold (guest_additions_iso W vbox). rewrite Hiso. reflexivity.
Qed.

Lemma install_guest_additions_info_failed W self vbox vm_name n :
  located self = Some vbox ->
  path_exists W (guest_additions_iso W vbox) = true ->
  exited_zero (respond W n (showvminfo_cmd vbox vm_name)) = false ->
  install_guest_additions W self vm_name n
  = (inr false,
     [ Call (m_install_guest_additions vm_name);
       Run (showvminfo_cmd vbox vm_name) ]).
Proof.
  intros Hloc Hiso Hinfo. unfold install_guest_additions. rewrite Hloc.
  unfold bind at 1. unfold emit at 1. cbv beta iota zeta.
  fold (guest_additions_iso W vbox). rewrite Hiso. cbn [negb].
  unfold try_except at 1. unfold bind at 1.
  unfold subprocess_run. fold (showvminfo_cmd vbox vm_name).
  cbn [invocations is_invocation Nat.add].
  destruct (respond W n _) as [rc out err| | |]; try reflexivity.
  cbn [exited_zero] in Hinfo. rewrite Hinfo. reflexivity.
Qed.

(** C4 (as amended).  The saga fails at once, with no command, when the
    installation medium is absent next to the located binary.  With the
    medium present it runs the info query; when that query does not exit 0
    the saga fails without any attach.  When the query exits 0 and the
    controller can be read, the saga attaches on port "1" and succeeds at
    once on exit 0; on a non-zero exit it attaches on port "0" and
    succeeds on exit 0, the empty-drive fallback not being run; only when
    both attempts exit non-zero does it create an empty drive on port "1"
    and, if that exits 0, retry the attach there, succeeding exactly when
    both exit 0.  A port attempt that does not exit at all (timeout,
    launch error) ends the saga with failure and no further command. *)
Theorem install_guest_additions_port_fallback W self vbox vm_name n :
  located self = Some vbox ->
  let iso := guest_additions_iso W vbox in
  let info := showvminfo_cmd vbox vm_name in
  let entry := Call (m_install_guest_additions vm_name) in
  let r := install_guest_additions W self vm_name n in
  (path_exists W iso = false -> r = (inr false, [entry]))
  /\ (path_exists W iso = true ->
      (exited_zero (respond W n info) = false ->
       r = (inr false, [entry; Run info]))
      /\ forall out err found,
           respond W n info = Exited 0 out err ->
           value (find_controller (split newline out) 0) = inr found ->
           let ctl := controller_of found in
           let port1 := attach_cmd vbox vm_name ctl "1" iso in
           let port0 := attach_cmd vbox vm_name ctl "0" iso in
           let empty := attach_cmd vbox vm_name ctl "1" "emptydrive" in
           let o1 := respond W (1 + n) port1 in
           let o0 := respond W (2 + n) port0 in
           let oe := respond W (3 + n) empty in
           let retry := respond W (4 + n) port1 in
           (exited_zero o1 = true ->
            r = (inr true, [entry; Run info; Run port1]))
           /\ (nonzero_exit o1 = true -> exited_zero o0 = true ->
               r = (inr true, [entry; Run info; Run port1; Run port0]))
           /\ (nonzero_exit o1 = true -> nonzero_exit o0 = true ->
               r = (inr (exited_zero oe && exited_zero retry),
                    [entry; Run info; Run port1; Run port0; Run empty]
                    ++ (if exited_zero oe then [Run port1] else []))%list)
           /\ (no_exit o1 = true ->
               r = (inr false, [entry; Run info; Run port1]))
           /\ (nonzero_exit o1 = true -> no_exit o0 = true ->
               r = (inr false, [entry; Run info; Run port1; Run port0]))).
Proof.
  intros Hloc iso info entry r. subst iso info entry r. split.
  - apply install_guest_additions_no_medium; assumption.
  - intros Hiso. split.
    + apply install_guest_additions_info_failed; assumption.
    + intros out err found Hinfo Hfound ctl port1 port0 empty o1 o0 oe retry.
      rewrite (install_guest_additions_run W self vbox vm_name n out err
                 found Hloc Hiso Hinfo Hfound).
      cbv zeta. fold ctl. fold port1 port0 empty. fold o1 o0 oe retry.
      destruct o1 as [rc1 ? ?| | |], o0 as [rc0 ? ?| | |];
        cbn [exited_zero nonzero_exit no_exit];
        try destruct (rc1 =? 0)%Z; try destruct (rc0 =? 0)%Z;
        cbn [negb]; repeat split; intros; try discriminate;
        try reflexivity;
        destruct (exited_zero oe); reflexivity.
Qed.

Lemma install_guest_additions_port_fallback_witness :
  located Sample.manager = Some Sample.vbox
  /\ install_guest_additions Sample.port1_refuses Sample.manager "web-01" 0
     = (inr true,
        [ Call (m_install_guest_additions "web-01");
          Run (showvminfo_cmd Sample.vbox "web-01");
          Run (attach_cmd Sample.vbox "web-01" "IDE" "1" Sample.iso);
          Run (attach_cmd Sample.vbox "web-01" "IDE" "0" Sample.iso) ]).
Proof.
  split; [reflexivity|].
  destruct (install_guest_additions_port_fallback
              Sample.port1_refuses Sample.manager Sample.vbox "web-01" 0
              eq_refl) as [_ H].
  destruct (H eq_refl) as [_ H'].
  destruct (H' ("storagecontrollername0=" ++ dquote ++ "IDE" ++ dquote) ""
               (Some "IDE") eq_refl eq_refl) as (_ & Hport0 & _).
  exact (Hport0 eq_refl eq_refl).
Defined.

(** C4, as stated, fails: with the medium present, a failed info query
    ends the saga before any attach is attempted, and an attach on port
    "1" that hangs ends it before port "0" is tried, although port "0"
    would have succeeded. *)
Lemma install_guest_additions_stops_before_attach :
  path_exists Sample.info_query_fails
    (guest_additions_iso Sample.info_query_fails Sample.vbox) = true
  /\ install_guest_additions Sample.info_query_fails Sample.manager
       "web-01" 0
     = (inr false,
        [ Call (m_install_guest_additions "web-01");
          Run (showvminfo_cmd Sample.vbox "web-01") ])
  /\ install_guest_additions Sample.port1_hangs Sample.manager "web-01" 0
     = (inr false,
        [ Call (m_install_guest_additions "web-01");
          Run (showvminfo_cmd Sample.vbox "web-01");
          Run (attach_cmd Sample.vbox "web-01" "IDE Controller" "1"
                 Sample.iso) ])
  /\ exited_zero
       (respond Sample.port1_hangs 2
          (attach_cmd Sample.vbox "web-01" "IDE Controller" "0" Sample.iso))
     = true.
Proof. repeat split; reflexivity. Qed.

(* ================================================================== *)
(** ** Concrete runs *)

(** The list output of the specification's example. *)
Example list_vms_two_vms :
  list_vms (Sample.answering Sample.two_vms) Sample.manager 0
  = (inr ["web-01"; "db-01"],
     [Call m_list_vms; Run (list_cmd Sample.vbox)]).
Proof. reflexivity. Qed.

Example get_vm_status_running :
  value (get_vm_status Sample.running_guest Sample.manager "web-01" 0)
  = inr (Some "running").
Proof. reflexivity. Qed.

Example get_vm_status_without_key :
  value (get_vm_status (Sample.answering "name=web-01") Sample.manager
           "web-01" 0) = inr None.
Proof. reflexivity. Qed.

(** No guest tooling and a password: the SSH path is entered once; it
    resolves the IP, finds none and gives up. *)
Example message_falls_back_to_ssh :
  main_message Sample.no_guest_tooling Sample.manager
    (mkArgs a_message "web-01" false false "alice" (Some "secret") "hello") 0
  = (inr 1%Z,
     [ Call (m_broadcast_message_to_vm "web-01" "alice" "hello");
       Run (guestcontrol_cmd Sample.vbox "web-01" "alice" "hello");
       Call (m_send_message_to_vm "web-01" "alice" "secret" "hello");
       Call (m_get_vm_ip "web-01");
       Run (guestproperty_cmd Sample.vbox "web-01") ]).
Proof. reflexivity. Qed.

(** No guest tooling and no password: failure, and the SSH path is not
    entered. *)
Example message_without_password :
  main_message Sample.no_guest_tooling Sample.manager
    (mkArgs a_message "web-01" false false "alice" None "hello") 0
  = (inr 1%Z,
     [ Call (m_broadcast_message_to_vm "web-01" "alice" "hello");
       Run (guestcontrol_cmd Sample.vbox "web-01" "alice" "hello") ]).
Proof. reflexivity. Qed.

(** A running guest: no start, two status queries, then the terminal. *)
Example svo_running_guest :
  start_vm_and_open_a_terminal Sample.running_guest Sample.manager
    "web-01" "alice" 0
  = (inr 0%Z,
     [ Call (m_start_vm_and_open_a_terminal "web-01" "alice");
       Call (m_get_vm_status "web-01");
       Run (showvminfo_cmd Sample.vbox "web-01");
       Call (m_get_vm_status "web-01");
       Run (showvminfo_cmd Sample.vbox "web-01");
       Call (m_open_terminal "web-01" "alice");
       Call (m_get_vm_ip "web-01");
       Run (guestproperty_cmd Sample.vbox "web-01");
       Popen (wt_cmd "web-01" "alice" "10.0.2.15") ]).
Proof. reflexivity. Qed.

(** A guest that cannot be started: one headless start, no terminal. *)
Example svo_stuck_guest :
  start_vm_and_open_a_terminal Sample.stuck_guest Sample.manager
    "web-01" "alice" 0
  = (inr 1%Z,
     [ Call (m_start_vm_and_open_a_terminal "web-01" "alice");
       Call (m_get_vm_status "web-01");
       Run (showvminfo_cmd Sample.vbox "web-01");
       Call (m_start_vm "web-01" true);
       Run (startvm_cmd Sample.vbox "web-01" true);
       Call (m_get_vm_status "web-01");
       Run (showvminfo_cmd Sample.vbox "web-01") ]).
Proof. reflexivity. Qed.

(* ================================================================== *)
(** ** Invariants of the monadic layer *)

Lemma runs_satisfy_nil P : runs_satisfy P [].
Proof. intros c []. Qed.

Lemma runs_satisfy_app P evs evs' :
  runs_satisfy P evs -> runs_satisfy P evs' -> runs_satisfy P (evs ++ evs').
Proof.
  intros H H' c Hin. apply in_app_or in Hin. destruct Hin; auto.
Qed.

Lemma runs_satisfy_weaken (P Q : Cmd -> Prop) evs :
  (forall c, P c -> Q c) -> runs_satisfy P evs -> runs_satisfy Q evs.
Proof. intros HPQ H c Hin. auto. Qed.

Lemma keeps_ret {A} P (a : A) : keeps P (ret a).
Proof. intros n. apply runs_satisfy_nil. Qed.

Lemma keeps_raise {A} P e : keeps P (@raise A e).
Proof. intros n. apply runs_satisfy_nil. Qed.

Lemma keeps_emit_call P m : keeps P (emit (Call m)).
Proof. intros n c [Hc|[]]. discriminate. Qed.

Lemma keeps_bind {A B} P (m : M A) (k : A -> M B) :
  keeps P m -> (forall a, keeps P (k a)) -> keeps P (bind m k).
Proof.
  intros Hm Hk n. specialize (Hm n). unfold bind, events in *.
  destruct (m n) as [[e|a] evs]; cbn [snd] in *; [exact Hm|].
  specialize (Hk a (invocations evs + n)).
  destruct (k a (invocations evs + n)) as [r evs']. cbn [snd] in *.
  now apply runs_satisfy_app.
Qed.

(** The continuation may rely on what [m] guarantees of its result. *)
Lemma keeps_bind_post {A B} P (Q : A -> Prop) (m : M A) (k : A -> M B) :
  keeps P m ->
  (forall n a, value (m n) = inr a -> Q a) ->
  (forall a, Q a -> keeps P (k a)) ->
  keeps P (bind m k).
Proof.
  intros Hm HQ Hk n. specialize (Hm n). specialize (HQ n).
  unfold bind, events, value in *.
  destruct (m n) as [[e|a] evs]; cbn [fst snd] in *; [exact Hm|].
  specialize (Hk a (HQ a eq_refl) (invocations evs + n)).
  destruct (k a (invocations evs + n)) as [r evs']. cbn [snd] in *.
  now apply runs_satisfy_app.
Qed.

Lemma keeps_try_except {A} P (m : M A) h :
  keeps P m -> (forall e k, h e = Some k -> keeps P k) ->
  keeps P (try_except m h).
Proof.
  intros Hm Hh n. specialize (Hm n). unfold try_except, events in *.
  destruct (m n) as [[e|a] evs]; cbn [snd] in *; [|exact Hm].
  destruct (h e) as [k|] eqn:He; [|exact Hm].
  specialize (Hh e k He (invocations evs + n)).
  destruct (k (invocations evs + n)) as [r evs']. cbn [snd] in *.
  now apply runs_satisfy_app.
Qed.

Lemma keeps_subprocess_run (P : Cmd -> Prop) W args inp tmo check :
  P (mkCmd args inp tmo) -> keeps P (subprocess_run W args inp tmo check).
Proof. intros HP n c [Hc|[]]. now injection Hc as <-. Qed.

Lemma keeps_subprocess_popen P W args : keeps P (subprocess_popen W args).
Proof. intros n c [Hc|[]]. discriminate. Qed.

Lemma keeps_py_index {A} P (l : list A) i : keeps P (py_index l i).
Proof.
  unfold py_index. destruct (nth_error l i);
    [apply keeps_ret|apply keeps_raise].
Qed.

Lemma keeps_handler_any {A} P (k : M A) e k' :
  keeps P k -> any_exception k e = Some k' -> keeps P k'.
Proof. intros Hk [= <-]. exact Hk. Qed.

Lemma keeps_handler_cpe {A} P (k : M A) e k' :
  keeps P k -> on_CalledProcessError k e = Some k' -> keeps P k'.
Proof. intros Hk He. destruct e; inversion He; subst; exact Hk. Qed.

Lemma keeps_handler_probe {A} P (k : M A) e k' :
  keeps P k -> probe_failed k e = Some k' -> keeps P k'.
Proof. intros Hk He. destruct e; inversion He; subst; exact Hk. Qed.

Lemma keeps_handler_path_probe {A} P (k : M A) e k' :
  keeps P k -> path_probe_failed k e = Some k' -> keeps P k'.
Proof. intros Hk He. destruct e; inversion He; subst; exact Hk. Qed.

Lemma returns_ret {A} (a : A) : returns (ret a).
Proof. intros n. now exists a. Qed.

Lemma returns_bind {A B} (m : M A) (k : A -> M B) :
  returns m -> (forall a, returns (k a)) -> returns (bind m k).
Proof.
  intros Hm Hk n. destruct (Hm n) as [a Ha]. unfold bind, value in *.
  destruct (m n) as [v evs]. cbn [fst] in Ha. subst v.
  destruct (Hk a (invocations evs + n)) as [b Hb].
  destruct (k a (invocations evs + n)) as [r evs']. cbn [fst] in *.
  eauto.
Qed.

(** A body under [except Exception: return x] never raises. *)
Lemma returns_try_any {A} (m : M A) (x : A) :
  returns (try_except m (any_exception (ret x))).
Proof.
  intros n. unfold try_except, any_exception, ret, value.
  destruct (m n) as [[e|a] evs]; cbn [fst]; eauto.
Qed.

Lemma returns_emit e : returns (emit e).
Proof. intros n. now exists tt. Qed.


(* ================================================================== *)
(** ** What the methods run, and that they never raise *)

Ltac solve_orchestrator_cmd :=
  solve [ left; cbn; repeat split; auto
        | right; cbn; repeat split; auto; discriminate ].

(** One step of a proof that a computation keeps an invariant on the
    commands it runs. *)
Ltac keeps_step :=
  lazymatch goal with
  | |- keeps _ (ret _) => apply keeps_ret
  | |- keeps _ (raise _) => apply keeps_raise
  | |- keeps _ (emit (Call _)) => apply keeps_emit_call
  | |- keeps _ (py_index _ _) => apply keeps_py_index
  | |- keeps _ (subprocess_popen _ _) => apply keeps_subprocess_popen
  | |- keeps _ (subprocess_run _ _ _ _ _) =>
      apply keeps_subprocess_run; try solve_orchestrator_cmd
  | |- keeps _ (bind _ _) => apply keeps_bind; [|intros ?]
  | |- keeps _ (try_except _ _) =>
      apply keeps_try_except;
      [|let e := fresh "e" in
        let k := fresh "k" in
        let He := fresh "He" in
        intros e k He;
        first [ eapply keeps_handler_any; [|exact He]
              | eapply keeps_handler_cpe; [|exact He]
              | eapply keeps_handler_probe; [|exact He]
              | eapply keeps_handler_path_probe; [|exact He] ]]
  | |- keeps _ (if ?b then _ else _) => destruct b
  | |- keeps _ (match ?x with Some _ => _ | None => _ end) => destruct x
  | |- keeps _ (let _ := _ in _) => cbv zeta
  end.

Lemma collect_vm_names_keeps P lines vm_names :
  keeps P (collect_vm_names lines vm_names).
Proof.
  revert vm_names. induction lines as [|line rest IH]; intros vm_names;
    cbn [collect_vm_names]; repeat keeps_step; auto.
Qed.

Lemma find_vm_state_keeps P lines : keeps P (find_vm_state lines).
Proof.
  induction lines as [|line rest IH]; cbn [find_vm_state];
    repeat keeps_step; auto.
Qed.

Lemma find_controller_keeps P lines : keeps P (find_controller lines).
Proof.
  induction lines as [|line rest IH]; cbn [find_controller];
    repeat keeps_step; auto.
Qed.

Lemma try_ports_keeps W vbox vm_name controller_name iso ports :
  keeps (orchestrator_cmd vbox)
    (try_ports W vbox vm_name controller_name iso ports).
Proof.
  induction ports as [|port rest IH]; cbn [try_ports];
    repeat keeps_step; auto.
Qed.

Section MethodInvariants.

Variable W : World.
Variable self : VMManager.
Variable vbox : string.
Hypothesis Hloc : located self = Some vbox.

Let P := orchestrator_cmd vbox.

Lemma list_vms_keeps : keeps P (list_vms W self).
Proof.
  unfold list_vms. rewrite Hloc. repeat keeps_step.
  apply collect_vm_names_keeps.
Qed.

Lemma start_vm_keeps vm_name headless :
  keeps P (start_vm W self vm_name headless).
Proof. unfold start_vm. rewrite Hloc. repeat keeps_step. Qed.

Lemma broadcast_message_to_vm_keeps vm_name user message :
  keeps P (broadcast_message_to_vm W self vm_name user message).
Proof. unfold broadcast_message_to_vm. rewrite Hloc. repeat keeps_step. Qed.

Lemma stop_vm_keeps vm_name graceful :
  keeps P (stop_vm W self vm_name graceful).
Proof.
  unfold stop_vm. rewrite Hloc. keeps_step; [keeps_step|].
  keeps_step; [apply broadcast_message_to_vm_keeps|].
  destruct graceful; repeat keeps_step.
Qed.

Lemma get_vm_ip_keeps vm_name : keeps P (get_vm_ip W self vm_name).
Proof. unfold get_vm_ip. rewrite Hloc. repeat keeps_step. Qed.

Lemma get_vm_status_keeps vm_name : keeps P (get_vm_status W self vm_name).
Proof.
  unfold get_vm_status. rewrite Hloc. repeat keeps_step.
  apply find_vm_state_keeps.
Qed.

Lemma install_guest_additions_keeps vm_name :
  keeps P (install_guest_additions W self vm_name).
Proof.
  unfold install_guest_additions. rewrite Hloc.
  keeps_step; [keeps_step|]. keeps_step; [|keeps_step].
  cbv zeta. keeps_step; [keeps_step|].
  keeps_step; [keeps_step|]. keeps_step; [apply find_controller_keeps|].
  keeps_step; [apply try_ports_keeps|].
  repeat keeps_step.
Qed.

Lemma send_message_to_vm_keeps vm_name user password message :
  keeps P (send_message_to_vm W self vm_name user password message).
Proof.
  unfold send_message_to_vm. rewrite Hloc.
  keeps_step; [keeps_step|]. keeps_step; [|keeps_step].
  keeps_step; [apply get_vm_ip_keeps|]. repeat keeps_step.
Qed.

Lemma open_terminal_keeps vm_name user :
  keeps P (open_terminal W self vm_name user).
Proof.
  unfold open_terminal. rewrite Hloc.
  keeps_step; [keeps_step|]. keeps_step; [|keeps_step].
  keeps_step; [apply get_vm_ip_keeps|]. repeat keeps_step.
Qed.

Lemma start_vm_and_open_a_terminal_keeps vm_name user :
  keeps P (start_vm_and_open_a_terminal W self vm_name user).
Proof.
  unfold start_vm_and_open_a_terminal.
  keeps_step; [keeps_step|]. keeps_step; [apply get_vm_status_keeps|].
  keeps_step.
  { destruct (not_running a0); repeat keeps_step. apply start_vm_keeps. }
  keeps_step; [apply get_vm_status_keeps|].
  destruct (not_running a2); repeat keeps_step. apply open_terminal_keeps.
Qed.

Lemma main_action_keeps args : keeps P (main_action W self args).
Proof.
  unfold main_action, main_message.
  destruct (negb (truthy (vboxmanage_path self))); [apply keeps_ret|].
  destruct (action args); cbv zeta.
  - keeps_step; [apply start_vm_keeps|]. repeat keeps_step.
  - keeps_step; [apply stop_vm_keeps|]. repeat keeps_step.
  - keeps_step; [apply get_vm_ip_keeps|]. repeat keeps_step.
  - keeps_step; [apply list_vms_keeps|]. repeat keeps_step.
  - keeps_step; [apply install_guest_additions_keeps|]. repeat keeps_step.
  - keeps_step; [apply open_terminal_keeps|]. repeat keeps_step.
  - keeps_step; [apply broadcast_message_to_vm_keeps|].
    keeps_step; [|repeat keeps_step].
    destruct (negb a && truthy (password args));
      [apply send_message_to_vm_keeps|apply keeps_ret].
  - keeps_step; [apply start_vm_and_open_a_terminal_keeps|].
    repeat keeps_step.
  - keeps_step; [apply get_vm_status_keeps|]. repeat keeps_step.
Qed.

End MethodInvariants.

(* ================================================================== *)
(** ** The binary search, candidate by candidate *)

(** One turn of the loop over the common paths. *)
Lemma probe_common_cons W path rest n :
  probe_common W (path :: rest) n
  = if path_exists W path then
      let o := respond W n (probe_cmd path) in
      if exited_zero o then (inr path, [Run (probe_cmd path)])
      else if probe_survives o
      then (fst (probe_common W rest (S n)),
            Run (probe_cmd path) :: snd (probe_common W rest (S n)))
      else (inl (match o with Missing => FileNotFoundError | _ => OSError end),
            [Run (probe_cmd path)])
    else probe_common W rest n.
Proof.
  cbn [probe_common]. destruct (path_exists W path); [|reflexivity].
  unfold bind at 1, try_except, probe, bind at 1, subprocess_run.
  fold (probe_cmd path). cbv zeta.
  destruct (respond W n (probe_cmd path)) as [rc out err| | |];
    cbn [exited_zero probe_survives andb probe_failed ret invocations
         is_invocation Nat.add app]; try reflexivity.
  - destruct (rc =? 0)%Z;
      cbn [negb probe_failed ret invocations is_invocation Nat.add app];
      [reflexivity|].
    now destruct (probe_common W rest (S n)).
  - now destruct (probe_common W rest (S n)).
Qed.

(** What the loop over the common paths guarantees. *)
Lemma probe_common_spec W paths n :
  let r := probe_common W paths n in
  (forall e, In e (events r) ->
     exists p, In p paths /\ path_exists W p = true /\ e = Run (probe_cmd p))
  /\ invocations (events r) <= length paths
  /\ (forall p, value r = inr p ->
        In p paths /\ path_exists W p = true
        /\ exists before,
             events r = (before ++ [Run (probe_cmd p)])%list
             /\ exited_zero (respond W (invocations before + n)
                               (probe_cmd p)) = true).
Proof.
  revert n. induction paths as [|path rest IH]; intros n r; subst r.
  - cbn. split; [intros e []|]. split; [lia|]. discriminate.
  - rewrite probe_common_cons.
    destruct (path_exists W path) eqn:Hex.
    + cbv zeta.
      destruct (exited_zero (respond W n (probe_cmd path))) eqn:Hok.
      * unfold value, events. cbn [fst snd]. split; [|split].
        -- intros e [<-|[]]. exists path. cbn. auto.
        -- cbn. lia.
        -- intros p [= <-]. split; [now left|]. split; [exact Hex|].
           exists []. split; [reflexivity|exact Hok].
      * destruct (probe_survives (respond W n (probe_cmd path))).
        -- destruct (IH (S n)) as (Hev & Hn & Hv).
           unfold value, events in *. cbn [fst snd]. split; [|split].
           ++ intros e [<-|Hin].
              ** exists path. cbn. auto.
              ** destruct (Hev e Hin) as (p & Hp & Hpe & ->).
                 exists p. cbn. auto.
           ++ cbn [invocations is_invocation length]. lia.
           ++ intros p Hp. destruct (Hv p Hp) as (Hin & Hpe & before & Hb & Hz).
              split; [now right|]. split; [exact Hpe|].
              exists (Run (probe_cmd path) :: before). rewrite Hb.
              split; [reflexivity|].
              cbn [invocations is_invocation].
              now replace (1 + invocations before + n)
                with (invocations before + S n) by lia.
        -- unfold value, events. cbn [fst snd]. split; [|split].
           ++ intros e [<-|[]]. exists path. cbn. auto.
           ++ cbn. lia.
           ++ discriminate.
    + destruct (IH n) as (Hev & Hn & Hv). split; [|split].
      * intros e Hin. destruct (Hev e Hin) as (p & Hp & Hpe & ->).
        exists p. cbn. auto.
      * cbn [length]. lia.
      * intros p Hp. destruct (Hv p Hp) as (Hin & Hpe & Hb).
        split; [now right|]. split; assumption.
Qed.

(** The whole search, as a decision list. *)
Lemma find_vboxmanage_run W n :
  let fixed := path_exists W vbox_path in
  let o1 := respond W n (probe_cmd vbox_path) in
  let k := if fixed then S n else n in
  let ev1 := if fixed then [Run (probe_cmd vbox_path)] else [] in
  let o2 := respond W k (probe_cmd "VBoxManage") in
  let rest := probe_common W common_paths (S k) in
  find_vboxmanage W n
  = if fixed && exited_zero o1
    then (inr (Some vbox_path), Call m_find_vboxmanage :: ev1)
    else if fixed && negb (probe_survives o1)
    then (inr None, Call m_find_vboxmanage :: ev1)
    else if exited_zero o2
    then (inr (Some "VBoxManage"),
          Call m_find_vboxmanage
          :: ev1 ++ [Run (probe_cmd "VBoxManage")])%list
    else if negb (path_probe_survives o2)
    then (inr None,
          Call m_find_vboxmanage
          :: ev1 ++ [Run (probe_cmd "VBoxManage")])%list
    else (inr (match fst rest with inr p => Some p | inl _ => None end),
          Call m_find_vboxmanage
          :: ev1 ++ Run (probe_cmd "VBoxManage") :: snd rest)%list.
Proof.
  intros fixed o1 k ev1 o2 rest. subst fixed o1 k ev1 o2 rest.
  unfold find_vboxmanage.
  unfold bind at 1. unfold emit at 1. cbv beta iota.
  change (invocations [Call m_find_vboxmanage] + n) with n.
  unfold try_except at 1. unfold bind at 1.
  destruct (path_exists W vbox_path).
  - unfold try_except at 1, probe at 1, bind at 1, subprocess_run at 1.
    fold (probe_cmd vbox_path).
    destruct (respond W n (probe_cmd vbox_path)) as [rc out err| | |];
      cbn [exited_zero probe_survives andb negb probe_failed ret
           any_exception invocations is_invocation Nat.add app fst snd];
      try reflexivity.
    + destruct (rc =? 0)%Z;
        cbn [negb probe_failed ret any_exception invocations is_invocation
             Nat.add app fst snd]; [reflexivity|].
      unfold bind at 1, try_except at 1, probe at 1, bind at 1,
        subprocess_run at 1.
      fold (probe_cmd "VBoxManage").
      destruct (respond W (S n) (probe_cmd "VBoxManage"))
        as [rc' out' err'| | |];
        cbn [exited_zero path_probe_survives andb negb path_probe_failed
             ret any_exception invocations is_invocation Nat.add app
             fst snd]; try reflexivity.
      * destruct (rc' =? 0)%Z;
          cbn [negb path_probe_failed ret any_exception invocations
               is_invocation Nat.add app fst snd]; [reflexivity|].
        unfold bind.
        destruct (probe_common W common_paths (S (S n))) as [[e|p] evs];
          cbn [fst snd app ret]; rewrite ?app_nil_r; reflexivity.
      * unfold bind.
        destruct (probe_common W common_paths (S (S n))) as [[e|p] evs];
          cbn [fst snd app ret]; rewrite ?app_nil_r; reflexivity.
    + unfold bind at 1, try_except at 1, probe at 1, bind at 1,
        subprocess_run at 1.
      fold (probe_cmd "VBoxManage").
      destruct (respond W (S n) (probe_cmd "VBoxManage"))
        as [rc' out' err'| | |];
        cbn [exited_zero path_probe_survives andb negb path_probe_failed
             ret any_exception invocations is_invocation Nat.add app
             fst snd]; try reflexivity.
      * destruct (rc' =? 0)%Z;
          cbn [negb path_probe_failed ret any_exception invocations
               is_invocation Nat.add app fst snd]; [reflexivity|].
        unfold bind.
        destruct (probe_common W common_paths (S (S n))) as [[e|p] evs];
          cbn [fst snd app ret]; rewrite ?app_nil_r; reflexivity.
      * unfold bind.
        destruct (probe_common W common_paths (S (S n))) as [[e|p] evs];
          cbn [fst snd app ret]; rewrite ?app_nil_r; reflexivity.
  - unfold ret at 1. cbv beta iota.
    change (invocations [] + n) with n.
    unfold bind at 1, try_except at 1, probe at 1, bind at 1,
      subprocess_run at 1.
    fold (probe_cmd "VBoxManage").
    destruct (respond W n (probe_cmd "VBoxManage"))
      as [rc' out' err'| | |];
      cbn [exited_zero path_probe_survives andb negb path_probe_failed
           ret any_exception invocations is_invocation Nat.add app
           fst snd]; try reflexivity.
    + destruct (rc' =? 0)%Z;
        cbn [negb path_probe_failed ret any_exception invocations
             is_invocation Nat.add app fst snd]; [reflexivity|].
      unfold bind.
      destruct (probe_common W common_paths (S n)) as [[e|p] evs];
          cbn [fst snd app ret]; rewrite ?app_nil_r; reflexivity.
    + unfold bind.
      destruct (probe_common W common_paths (S n)) as [[e|p] evs];
          cbn [fst snd app ret]; rewrite ?app_nil_r; reflexivity.
Qed.

Lemma probe_common_none_exists W paths n :
  (forall p, In p paths -> path_exists W p = false) ->
  probe_common W paths n = (inl FileNotFoundError, []).
Proof.
  induction paths as [|path rest IH]; intros Hnone; [reflexivity|].
  rewrite probe_common_cons, (Hnone path (or_introl eq_refl)).
  apply IH. intros p Hp. apply Hnone. now right.
Qed.

(** What the search guarantees of the path it returns. *)
Lemma find_vboxmanage_sound W n p :
  value (find_vboxmanage W n) = inr (Some p) ->
  In p candidates
  /\ (p = "VBoxManage" \/ path_exists W p = true)
  /\ exists before,
       events (find_vboxmanage W n) = (before ++ [Run (probe_cmd p)])%list
       /\ exited_zero (respond W (invocations before + n) (probe_cmd p))
          = true.
Proof.
  rewrite find_vboxmanage_run. cbv zeta.
  destruct (path_exists W vbox_path) eqn:Hex; cbn [andb].
  - destruct (exited_zero (respond W n (probe_cmd vbox_path))) eqn:H1.
    + unfold value, events. cbn [fst snd]. intros [= <-].
      split; [now left|]. split; [now right|].
      exists [Call m_find_vboxmanage]. split; [reflexivity|exact H1].
    + destruct (negb (probe_survives (respond W n (probe_cmd vbox_path))));
        [discriminate|].
      destruct (exited_zero (respond W (S n) (probe_cmd "VBoxManage")))
        eqn:H2.
      * unfold value, events. cbn [fst snd]. intros [= <-].
        split; [right; now left|]. split; [now left|].
        exists [Call m_find_vboxmanage; Run (probe_cmd vbox_path)].
        split; [reflexivity|exact H2].
      * destruct (negb (path_probe_survives
                          (respond W (S n) (probe_cmd "VBoxManage"))));
          [discriminate|].
        destruct (probe_common_spec W common_paths (S (S n)))
          as (_ & _ & Hv).
        unfold value, events in *. cbn [fst snd].
        destruct (probe_common W common_paths (S (S n))) as [[e|q] evs];
          cbn [fst snd] in *; [discriminate|].
        intros [= <-]. destruct (Hv q eq_refl) as (Hin & Hq & before & -> & Hz).
        split; [right; now right|]. split; [now right|].
        exists (Call m_find_vboxmanage :: Run (probe_cmd vbox_path)
                :: Run (probe_cmd "VBoxManage") :: before).
        split; [reflexivity|].
        cbn [invocations is_invocation].
        now replace (0 + (1 + (1 + invocations before)) + n)
          with (invocations before + S (S n)) by lia.
  - destruct (exited_zero (respond W n (probe_cmd "VBoxManage"))) eqn:H2.
    + unfold value, events. cbn [fst snd]. intros [= <-].
      split; [right; now left|]. split; [now left|].
      exists [Call m_find_vboxmanage]. split; [reflexivity|exact H2].
    + destruct (negb (path_probe_survives
                        (respond W n (probe_cmd "VBoxManage"))));
        [discriminate|].
      destruct (probe_common_spec W common_paths (S n)) as (_ & _ & Hv).
      unfold value, events in *. cbn [fst snd].
      destruct (probe_common W common_paths (S n)) as [[e|q] evs];
        cbn [fst snd] in *; [discriminate|].
      intros [= <-]. destruct (Hv q eq_refl) as (Hin & Hq & before & -> & Hz).
      split; [right; now right|]. split; [now right|].
      exists (Call m_find_vboxmanage :: Run (probe_cmd "VBoxManage")
              :: before).
      split; [reflexivity|].
      cbn [invocations is_invocation].
      now replace (0 + (1 + invocations before) + n)
        with (invocations before + S n) by lia.
Qed.

(** X1. A path returned by the search is one of the candidates, exists on
    disk unless it is the PATH-resolved name, and was validated: the last
    command of the search is its version probe, and that probe exited 0. *)
Theorem find_vboxmanage_returns_validated_candidate W n p :
  value (find_vboxmanage W n) = inr (Some p) ->
  In p candidates
  /\ (p = "VBoxManage" \/ path_exists W p = true)
  /\ exists before,
       events (find_vboxmanage W n) = (before ++ [Run (probe_cmd p)])%list
       /\ exited_zero (respond W (invocations before + n) (probe_cmd p))
          = true.
Proof. exact (find_vboxmanage_sound W n p). Qed.

Lemma find_vboxmanage_returns_validated_candidate_witness :
  value (find_vboxmanage Sample.path_probe_fails 0) = inr (Some Sample.vbox)
  /\ In Sample.vbox candidates
  /\ path_exists Sample.path_probe_fails Sample.vbox = true.
Proof.
  split; [reflexivity|].
  destruct (find_vboxmanage_returns_validated_candidate
              Sample.path_probe_fails 0 Sample.vbox eq_refl)
    as (Hin & [Hp|Hex] & _).
  - discriminate.
  - split; assumption.
Defined.

(** What the search runs. *)
Lemma find_vboxmanage_events W n :
  (exists found, value (find_vboxmanage W n) = inr found)
  /\ (forall e, In e (events (find_vboxmanage W n)) ->
        e = Call m_find_vboxmanage
        \/ exists p, In p candidates
                     /\ (p = "VBoxManage" \/ path_exists W p = true)
                     /\ e = Run (mkCmd [p; "--version"] None 10))
  /\ invocations (events (find_vboxmanage W n)) <= 7.
Proof.
  rewrite find_vboxmanage_run. cbv zeta.
  assert (Hfixed : path_exists W vbox_path = true ->
            forall e, e = Run (probe_cmd vbox_path) ->
            e = Call m_find_vboxmanage
            \/ exists p, In p candidates
                 /\ (p = "VBoxManage" \/ path_exists W p = true)
                 /\ e = Run (mkCmd [p; "--version"] None 10)).
  { intros Hex e ->. right. exists vbox_path. cbn. auto. }
  assert (Hpath : forall e, e = Run (probe_cmd "VBoxManage") ->
            e = Call m_find_vboxmanage
            \/ exists p, In p candidates
                 /\ (p = "VBoxManage" \/ path_exists W p = true)
                 /\ e = Run (mkCmd [p; "--version"] None 10)).
  { intros e ->. right. exists "VBoxManage". cbn. auto. }
  assert (Hcommon : forall k e,
            In e (events (probe_common W common_paths k)) ->
            e = Call m_find_vboxmanage
            \/ exists p, In p candidates
                 /\ (p = "VBoxManage" \/ path_exists W p = true)
                 /\ e = Run (mkCmd [p; "--version"] None 10)).
  { intros k e Hin.
    destruct (probe_common_spec W common_paths k) as (Hev & _ & _).
    destruct (Hev e Hin) as (p & Hp & Hex & ->).
    right. exists p. split; [right; now right|]. auto. }
  assert (Hlen : forall k,
            invocations (events (probe_common W common_paths k)) <= 5).
  { intros k. destruct (probe_common_spec W common_paths k) as (_ & H & _).
    exact H. }
  pose proof (Hlen (S n)) as Hlen1. pose proof (Hlen (S (S n))) as Hlen2.
  unfold events in *.
  destruct (path_exists W vbox_path) eqn:Hex; cbn [andb];
    repeat match goal with
           | |- context [if ?b then _ else _] => destruct b
           end;
    unfold value; cbn [fst snd];
    (split; [eauto|]);
    (split; [|cbn [invocations is_invocation app Nat.add]; lia]);
    intros e Hin; cbn [In app] in Hin;
    repeat match goal with
           | H : _ \/ _ |- _ => destruct H
           | H : False |- _ => destruct H
           end; subst; eauto.
Qed.

(** X2. The search never raises, runs only version probes (with a 10
    second bound and no input) of candidates that exist on disk or of the
    PATH-resolved name, runs at most seven of them and spawns nothing. *)
Theorem find_vboxmanage_probes_only_candidates W n :
  (exists found, value (find_vboxmanage W n) = inr found)
  /\ (forall e, In e (events (find_vboxmanage W n)) ->
        e = Call m_find_vboxmanage
        \/ exists p, In p candidates
                     /\ (p = "VBoxManage" \/ path_exists W p = true)
                     /\ e = Run (mkCmd [p; "--version"] None 10))
  /\ invocations (events (find_vboxmanage W n)) <= 7.
Proof. exact (find_vboxmanage_events W n). Qed.

(** X3. The first usable candidate wins.  When the fixed path exists and
    its probe exits 0, the search returns it after that single probe.
    When the fixed path is absent and the probe of the PATH-resolved name
    exits 0, the search returns "VBoxManage" after that single probe: no
    common path is checked. *)
Theorem find_vboxmanage_first_usable_wins W n :
  (path_exists W vbox_path = true ->
   exited_zero (respond W n (probe_cmd vbox_path)) = true ->
   find_vboxmanage W n
   = (inr (Some vbox_path),
      [Call m_find_vboxmanage; Run (probe_cmd vbox_path)]))
  /\ (path_exists W vbox_path = false ->
      exited_zero (respond W n (probe_cmd "VBoxManage")) = true ->
      find_vboxmanage W n
      = (inr (Some "VBoxManage"),
         [Call m_find_vboxmanage; Run (probe_cmd "VBoxManage")])).
Proof.
  split; intros Hex Hok; rewrite find_vboxmanage_run; cbv zeta;
    rewrite Hex, Hok; reflexivity.
Qed.

Lemma find_vboxmanage_first_usable_wins_witness :
  find_vboxmanage Sample.running_guest 0
  = (inr (Some "VBoxManage"),
     [Call m_find_vboxmanage; Run (probe_cmd "VBoxManage")]).
Proof.
  exact (proj2 (find_vboxmanage_first_usable_wins Sample.running_guest 0)
           eq_refl eq_refl).
Defined.

(** X4. When no candidate file exists on disk and the PATH-resolved name
    is missing or exits non-zero, the search is exhausted after that one
    probe and returns None. *)
Theorem find_vboxmanage_exhausted W n :
  (forall p, In p (vbox_path :: common_paths) -> path_exists W p = false) ->
  path_probe_survives (respond W n (probe_cmd "VBoxManage")) = true ->
  find_vboxmanage W n
  = (inr None, [Call m_find_vboxmanage; Run (probe_cmd "VBoxManage")]).
Proof.
  intros Hnone Hfail. rewrite find_vboxmanage_run. cbv zeta.
  rewrite (Hnone vbox_path (or_introl eq_refl)). cbn [andb].
  rewrite Hfail. cbn [negb].
  rewrite probe_common_none_exists
    by (intros p Hp; apply Hnone; now right).
  destruct (respond W n (probe_cmd "VBoxManage")) as [rc out err| | |];
    try discriminate; cbn [exited_zero fst snd app];
    [|reflexivity].
  cbn [path_probe_survives] in Hfail.
  destruct (rc =? 0)%Z; [discriminate|reflexivity].
Qed.

Lemma find_vboxmanage_exhausted_witness :
  find_vboxmanage Sample.no_virtualbox 0
  = (inr None, [Call m_find_vboxmanage; Run (probe_cmd "VBoxManage")]).
Proof.
  apply find_vboxmanage_exhausted.
  - intros p Hp. reflexivity.
  - reflexivity.
Defined.

(** X5. The fixed path is also the first of the common paths, so it gets
    a second chance: when it exists, its first probe fails by a non-zero
    exit or a timeout and the PATH-resolved name is missing or exits
    non-zero, the third command of the search probes the fixed path again
    and, if that probe exits 0, the search returns the fixed path. *)
Theorem find_vboxmanage_probes_fixed_path_twice W n :
  path_exists W vbox_path = true ->
  probe_survives (respond W n (probe_cmd vbox_path)) = true ->
  path_probe_survives (respond W (1 + n) (probe_cmd "VBoxManage")) = true ->
  exited_zero (respond W (2 + n) (probe_cmd vbox_path)) = true ->
  find_vboxmanage W n
  = (inr (Some vbox_path),
     [ Call m_find_vboxmanage;
       Run (probe_cmd vbox_path);
       Run (probe_cmd "VBoxManage");
       Run (probe_cmd vbox_path) ]).
Proof.
  intros Hex H1 H2 H3. rewrite find_vboxmanage_run. cbv zeta.
  rewrite Hex, H1. cbn [andb negb Nat.add] in *. rewrite H2.
  assert (exited_zero (respond W n (probe_cmd vbox_path)) = false) as ->.
  { destruct (respond W n (probe_cmd vbox_path)) as [rc ? ?| | |];
      try reflexivity. cbn in *. now destruct (rc =? 0)%Z. }
  assert (exited_zero (respond W (S n) (probe_cmd "VBoxManage")) = false)
    as ->.
  { destruct (respond W (S n) (probe_cmd "VBoxManage")) as [rc ? ?| | |];
      try reflexivity. cbn in *. now destruct (rc =? 0)%Z. }
  cbn [negb].
  change common_paths with (vbox_path :: tl common_paths).
  rewrite probe_common_cons, Hex. cbv zeta. rewrite H3. reflexivity.
Qed.

Lemma find_vboxmanage_probes_fixed_path_twice_witness :
  value (find_vboxmanage Sample.fixed_path_flaky 0) = inr (Some vbox_path)
  /\ commands (events (find_vboxmanage Sample.fixed_path_flaky 0))
     = [probe_cmd vbox_path; probe_cmd "VBoxManage"; probe_cmd vbox_path].
Proof.
  rewrite (find_vboxmanage_probes_fixed_path_twice Sample.fixed_path_flaky 0
             eq_refl eq_refl eq_refl eq_refl).
  split; reflexivity.
Defined.

(* ================================================================== *)
(** ** The whole program *)

Lemma candidates_located p :
  In p candidates -> located (mkVMManager (Some p)) = Some p.
Proof.
  intros Hin. cbn in Hin.
  repeat destruct Hin as [<-|Hin]; try reflexivity. destruct Hin.
Qed.

Lemma located_none_truthy self :
  located self = None -> truthy (vboxmanage_path self) = false.
Proof.
  unfold located. destruct self as [[[|c p]|]]; cbn; congruence.
Qed.

Lemma VMManager_init_run W n :
  VMManager_init W n
  = (match value (find_vboxmanage W n) with
     | inr found => inr (mkVMManager found)
     | inl e => inl e
     end, events (find_vboxmanage W n)).
Proof.
  unfold VMManager_init, bind, ret, value, events.
  destruct (find_vboxmanage W n) as [[e|found] evs]; cbn [fst snd];
    [reflexivity|]. now rewrite app_nil_r.
Qed.

(** X6. When the search finds no binary, [main] exits with status 1 for
    every action ([list] included) and does nothing but the search: no
    method of the manager is entered and no further command is run. *)
Theorem main_without_binary_exits_1 W args n :
  value (find_vboxmanage W n) = inr None ->
  main W args n = (inr 1%Z, events (find_vboxmanage W n)).
Proof.
  intros Hnone. unfold main.
  rewrite (bind_value _ _ n (mkVMManager None)
             (events (find_vboxmanage W n))).
  - unfold main_action. cbn. now rewrite app_nil_r.
  - now rewrite VMManager_init_run, Hnone.
Qed.

Lemma main_without_binary_exits_1_witness :
  main Sample.no_virtualbox (mkArgs a_list "" false false "" None "") 0
  = (inr 1%Z, [Call m_find_vboxmanage; Run (probe_cmd "VBoxManage")]).
Proof.
  exact (main_without_binary_exits_1 Sample.no_virtualbox
           (mkArgs a_list "" false false "" None "") 0 eq_refl).
Defined.

Section MethodsReturn.

Variable W : World.
Variable self : VMManager.

Ltac returns_method :=
  apply returns_bind; [apply returns_emit|intros _];
  destruct (located self); [apply returns_try_any|apply returns_ret].

Lemma list_vms_returns : returns (list_vms W self).
Proof. unfold list_vms. returns_method. Qed.

Lemma start_vm_returns vm_name headless :
  returns (start_vm W self vm_name headless).
Proof. unfold start_vm. returns_method. Qed.

Lemma broadcast_message_to_vm_returns vm_name user message :
  returns (broadcast_message_to_vm W self vm_name user message).
Proof. unfold broadcast_message_to_vm. returns_method. Qed.

Lemma stop_vm_returns vm_name graceful :
  returns (stop_vm W self vm_name graceful).
Proof.
  unfold stop_vm. apply returns_bind; [apply returns_emit|intros _].
  destruct (located self); [|apply returns_ret].
  apply returns_bind; [apply broadcast_message_to_vm_returns|intros _].
  apply returns_try_any.
Qed.

Lemma get_vm_ip_returns vm_name : returns (get_vm_ip W self vm_name).
Proof. unfold get_vm_ip. returns_method. Qed.

Lemma get_vm_status_returns vm_name :
  returns (get_vm_status W self vm_name).
Proof. unfold get_vm_status. returns_method. Qed.

Lemma install_guest_additions_returns vm_name :
  returns (install_guest_additions W self vm_name).
Proof. unfold install_guest_additions. returns_method. Qed.

Lemma send_message_to_vm_returns vm_name user password message :
  returns (send_message_to_vm W self vm_name user password message).
Proof. unfold send_message_to_vm. returns_method. Qed.

Lemma open_terminal_returns vm_name user :
  returns (open_terminal W self vm_name user).
Proof. unfold open_terminal. returns_method. Qed.

Lemma start_vm_and_open_a_terminal_returns vm_name user :
  returns (start_vm_and_open_a_terminal W self vm_name user).
Proof.
  unfold start_vm_and_open_a_terminal.
  apply returns_bind; [apply returns_emit|intros _].
  apply returns_bind; [apply get_vm_status_returns|intros status].
  apply returns_bind.
  { destruct (not_running status); [|apply returns_ret].
    apply returns_bind; [apply start_vm_returns|intros _].
    apply returns_ret. }
  intros _.
  apply returns_bind; [apply get_vm_status_returns|intros status'].
  destruct (not_running status'); [apply returns_ret|].
  apply returns_bind; [apply open_terminal_returns|intros _].
  apply returns_ret.
Qed.




End MethodsReturn.



(** Every command of a run of [main] is a version probe of a candidate or
    a command of the orchestrator on the candidate that was found. *)
Lemma main_keeps W args :
  keeps (fun c => candidate_probe c
                  \/ exists vbox, In vbox candidates
                                  /\ orchestrator_cmd vbox c)
        (main W args).
Proof.
  unfold main.
  apply keeps_bind_post
    with (Q := fun vm => located vm = None
                         \/ exists vbox, In vbox candidates
                                         /\ located vm = Some vbox).
  - intros n c Hin. rewrite VMManager_init_run in Hin.
    unfold events in Hin. cbn [snd] in Hin.
    destruct (find_vboxmanage_events W n) as (_ & Hev & _).
    destruct (Hev _ Hin) as [Hc|(p & Hp & _ & Hc)]; [discriminate|].
    injection Hc as ->. left. exists p. split; [exact Hp|reflexivity].
  - intros n vm Hvm. rewrite VMManager_init_run in Hvm.
    unfold value in Hvm. cbn [fst] in Hvm.
    destruct (fst (find_vboxmanage W n)) as [e|[p|]] eqn:Hfound;
      [discriminate| |].
    + injection Hvm as <-. right. exists p.
      destruct (find_vboxmanage_sound W n p Hfound)
        as (Hin & _). split; [exact Hin|now apply candidates_located].
    + injection Hvm as <-. now left.
  - intros vm [Hnone|(vbox & Hin & Hloc)].
    + unfold main_action. rewrite (located_none_truthy _ Hnone).
      apply keeps_ret.
    + intros n. eapply runs_satisfy_weaken;
        [|apply (main_action_keeps W vm vbox Hloc args n)].
      intros c Hc. right. eauto.
Qed.

(** X8. No invocation is unbounded: every command that a run of [main]
    hands to [subprocess.run] carries a timeout of 10, 30 or 60 seconds. *)
Theorem main_commands_have_bounded_timeouts W args n c :
  In (Run c) (events (main W args n)) ->
  timeout c = 10%Z \/ timeout c = 30%Z \/ timeout c = 60%Z.
Proof.
  intros Hin.
  destruct (main_keeps W args n c Hin)
    as [(p & _ & ->)|(vbox & _ & [(_ & _ & [Ht|Ht])|(_ & Ht & _)])];
    cbn; auto.
Qed.

Lemma main_commands_have_bounded_timeouts_witness :
  In (Run (startvm_cmd "VBoxManage" "web-01" true))
     (events (main Sample.stuck_guest Sample.svo_args 0))
  /\ timeout (startvm_cmd "VBoxManage" "web-01" true) = 60%Z.
Proof.
  assert (Hin : In (Run (startvm_cmd "VBoxManage" "web-01" true))
                   (events (main Sample.stuck_guest Sample.svo_args 0)))
    by (cbn; tauto).
  split; [exact Hin|].
  destruct (main_commands_have_bounded_timeouts Sample.stuck_guest
              Sample.svo_args 0 (startvm_cmd "VBoxManage" "web-01" true) Hin)
    as [H|[H|H]]; try discriminate. exact H.
Defined.

(** X9. A run of [main] executes nothing through [subprocess.run] but the
    six candidate control binaries and [ssh]; and only [ssh] is ever given
    anything on its standard input. *)
Theorem main_runs_only_known_executables W args n c :
  In (Run c) (events (main W args n)) ->
  In (executable c) ("ssh" :: candidates)
  /\ (input c <> None -> executable c = "ssh").
Proof.
  intros Hin.
  destruct (main_keeps W args n c Hin)
    as [(p & Hp & ->)|(vbox & Hv & [(He & Hi & _)|(He & _ & _)])].
  - split; [now right|]. cbn. congruence.
  - rewrite He. split; [now right|]. congruence.
  - rewrite He. split; [now left|]. reflexivity.
Qed.

Lemma main_runs_only_known_executables_witness :
  In (Run (startvm_cmd "VBoxManage" "web-01" true))
     (events (main Sample.stuck_guest Sample.svo_args 0))
  /\ In (executable (startvm_cmd "VBoxManage" "web-01" true))
        ("ssh" :: candidates).
Proof.
  assert (Hin : In (Run (startvm_cmd "VBoxManage" "web-01" true))
                   (events (main Sample.stuck_guest Sample.svo_args 0)))
    by (cbn; tauto).
  split; [exact Hin|].
  exact (proj1 (main_runs_only_known_executables Sample.stuck_guest
                  Sample.svo_args 0
                  (startvm_cmd "VBoxManage" "web-01" true) Hin)).
Defined.

(* ================================================================== *)
(** ** More on strings *)

Lemma drop_prefix_app p s rest :
  drop_prefix p s = Some rest -> s = p ++ rest.
Proof.
  revert s. induction p as [|a p IH]; intros s H; cbn in *.
  - now injection H as ->.
  - destruct s as [|b s]; [discriminate|].
    destruct (Ascii.eqb_spec a b) as [->|]; [|discriminate].
    cbn. f_equal. now apply IH.
Qed.

(** The text before the leftmost occurrence of a one-character separator
    does not hold that character. *)
Lemma cut_char_before ch s a b :
  cut (String ch "") s = Some (a, b) -> cut (String ch "") a = None.
Proof.
  revert a. induction s as [|c s IH]; intros a H; cbn in H; [discriminate|].
  destruct (Ascii.eqb_spec ch c) as [->|Hne].
  - injection H as <- _. reflexivity.
  - destruct (cut (String ch "") s) as [[a' b']|] eqn:Hc; [|discriminate].
    injection H as <- <-. cbn.
    destruct (Ascii.eqb_spec ch c); [contradiction|].
    now rewrite (IH a' eq_refl).
Qed.

Lemma field_after_char_no_sep ch s v :
  field_after (String ch "") s = Some v -> contains (String ch "") v = false.
Proof.
  unfold field_after, contains.
  destruct (cut (String ch "") s) as [[a b]|]; [|discriminate].
  destruct (cut (String ch "") b) as [[v' w]|] eqn:Hb; intros [= <-].
  - now rewrite (cut_char_before _ _ _ _ Hb).
  - now rewrite Hb.
Qed.

Lemma lstrip_by_first p s c :
  first_char (lstrip_by p s) = Some c -> p c = false.
Proof.
  induction s as [|a s IH]; cbn; [discriminate|].
  destruct (p a) eqn:Hpa; [exact IH|].
  cbn. now intros [= <-].
Qed.

Lemma rstrip_by_first p s c :
  first_char (rstrip_by p s) = Some c -> first_char s = Some c.
Proof.
  destruct s as [|a s]; cbn; [discriminate|].
  destruct (rstrip_by p s); [destruct (p a); [discriminate|]|]; cbn; auto.
Qed.

Lemma rstrip_by_last p s c :
  last_char (rstrip_by p s) = Some c -> p c = false.
Proof.
  induction s as [|a s IH]; cbn; [discriminate|].
  destruct (rstrip_by p s) as [|b r] eqn:Hr.
  - destruct (p a) eqn:Hpa; cbn; [discriminate|]. now intros [= <-].
  - cbn [last_char]. exact IH.
Qed.

(** A stripped string neither starts nor ends with a stripped character. *)
Lemma strip_by_ends p s :
  (forall c, first_char (strip_by p s) = Some c -> p c = false)
  /\ (forall c, last_char (strip_by p s) = Some c -> p c = false).
Proof.
  unfold strip_by. split; intros c H.
  - apply rstrip_by_first in H. now apply lstrip_by_first in H.
  - now apply rstrip_by_last in H.
Qed.

Lemma startswith_state_line_field line :
  is_state_line line = true ->
  exists rest, line = "VMState=" ++ rest
               /\ field_after "=" line
                  = Some (match cut "=" rest with
                          | Some (v, _) => v
                          | None => rest
                          end).
Proof.
  unfold is_state_line, startswith.
  destruct (drop_prefix "VMState=" line) as [rest|] eqn:Hd; [|discriminate].
  intros _. exists rest. apply drop_prefix_app in Hd. subst line.
  split; reflexivity.
Qed.

(* ================================================================== *)
(** ** The VM state *)

Lemma find_vm_state_none lines n :
  existsb is_state_line lines = false ->
  find_vm_state lines n = (inr None, []).
Proof.
  induction lines as [|line rest IH]; [reflexivity|].
  cbn [existsb find_vm_state]. intros [Hl Hr]%orb_false_elim.
  unfold is_state_line in Hl. rewrite Hl. now apply IH.
Qed.

Lemma find_vm_state_first before line after n :
  existsb is_state_line before = false ->
  is_state_line line = true ->
  exists v,
    field_after "=" line = Some v
    /\ find_vm_state (before ++ line :: after) n
       = (inr (Some (strip_chars [dquote_char] v)), []).
Proof.
  intros Hbefore Hline.
  induction before as [|l before IH].
  - cbn [app find_vm_state]. unfold is_state_line in Hline. rewrite Hline.
    assert (Hc : contains "=" line = true).
    { destruct (startswith_state_line_field line Hline) as (rest & _ & Hf).
      unfold contains. unfold field_after in Hf.
      now destruct (cut "=" line). }
    destruct (split_index_1_field _ _ Hc) as (v & Hf & Hnth).
    exists v. split; [exact Hf|].
    unfold py_index. rewrite Hnth. reflexivity.
  - cbn [existsb] in Hbefore. apply orb_false_elim in Hbefore as [Hl Hb].
    destruct (IH Hb) as (v & Hf & Hrun). exists v. split; [exact Hf|].
    cbn [app find_vm_state]. unfold is_state_line in Hl. now rewrite Hl.
Qed.

Lemma get_vm_status_exited_zero W self vbox vm_name n out err :
  located self = Some vbox ->
  respond W n (showvminfo_cmd vbox vm_name) = Exited 0 out err ->
  value (get_vm_status W self vm_name n)
  = match fst (find_vm_state (output_lines out) (S n)) with
    | inr st => inr st
    | inl _ => inr None
    end.
Proof.
  intros Hloc Ho. unfold get_vm_status. rewrite Hloc.
  unfold bind at 1. unfold emit at 1. cbv beta iota.
  unfold try_except, bind at 1, subprocess_run.
  cbn [invocations is_invocation Nat.add].
  fold (showvminfo_cmd vbox vm_name). rewrite Ho.
  change (true && negb (0 =? 0)%Z) with false. cbv iota.
  cbn [stdout invocations is_invocation Nat.add].
  fold (output_lines out).
  destruct (find_vm_state (output_lines out) (S n)) as [[e|st] evs];
    reflexivity.
Qed.

(** X10. On an info query that exited 0, [get_vm_status] reads the first
    line of the trimmed output that starts with "VMState=": the status is
    the text between the first "=" of that line and its next "=" (or the
    end of the line), with the double quotes around it removed.  Reading
    such a line never fails.  The status is None when no line starts with
    "VMState=". *)
Theorem get_vm_status_reads_first_state_line W self vbox vm_name n out err :
  located self = Some vbox ->
  respond W n (showvminfo_cmd vbox vm_name) = Exited 0 out err ->
  let status := value (get_vm_status W self vm_name n) in
  (existsb is_state_line (output_lines out) = false -> status = inr None)
  /\ (forall before line after,
        output_lines out = (before ++ line :: after)%list ->
        existsb is_state_line before = false ->
        is_state_line line = true ->
        exists v,
          field_after "=" line = Some v
          /\ status = inr (Some (strip_chars [dquote_char] v))).
Proof.
  intros Hloc Ho status. subst status.
  rewrite (get_vm_status_exited_zero W self vbox vm_name n out err Hloc Ho).
  split.
  - intros Hnone. now rewrite find_vm_state_none.
  - intros before line after Hlines Hbefore Hline. rewrite Hlines.
    destruct (find_vm_state_first before line after (S n) Hbefore Hline)
      as (v & Hf & Hrun).
    exists v. split; [exact Hf|]. now rewrite Hrun.
Qed.

Lemma get_vm_status_reads_first_state_line_witness :
  located Sample.manager = Some Sample.vbox
  /\ value (get_vm_status Sample.running_guest Sample.manager "web-01" 0)
     = inr (Some "running").
Proof.
  split; [reflexivity|].
  destruct (get_vm_status_reads_first_state_line
              Sample.running_guest Sample.manager Sample.vbox "web-01" 0
              (Sample.vminfo "running") "" eq_refl eq_refl) as [_ H].
  destruct (H ["name=" ++ dquote ++ "web-01" ++ dquote]
              ("VMState=" ++ dquote ++ "running" ++ dquote) []
              eq_refl eq_refl eq_refl) as (v & Hf & Hst).
  injection Hf as <-. exact Hst.
Defined.

(** A query that does not exit 0. *)
Lemma failed_query_run W self vbox vm_name n :
  located self = Some vbox ->
  (exited_zero (respond W n (showvminfo_cmd vbox vm_name)) = false ->
   get_vm_status W self vm_name n
   = (inr None,
      [Call (m_get_vm_status vm_name); Run (showvminfo_cmd vbox vm_name)]))
  /\ (exited_zero (respond W n (guestproperty_cmd vbox vm_name)) = false ->
      get_vm_ip W self vm_name n
      = (inr None,
         [Call (m_get_vm_ip vm_name); Run (guestproperty_cmd vbox vm_name)])).
Proof.
  intros Hloc. split; intros Hfail.
  - unfold get_vm_status. rewrite Hloc.
    unfold bind at 1. unfold emit at 1. cbv beta iota.
    unfold try_except, bind at 1, subprocess_run, any_exception, ret.
    cbn [invocations is_invocation Nat.add].
    fold (showvminfo_cmd vbox vm_name).
    destruct (respond W n (showvminfo_cmd vbox vm_name))
      as [rc out err| | |]; try reflexivity.
    cbn [exited_zero] in Hfail. rewrite Hfail. reflexivity.
  - unfold get_vm_ip. rewrite Hloc.
    unfold bind at 1. unfold emit at 1. cbv beta iota.
    unfold try_except, bind at 1, subprocess_run, any_exception, ret.
    cbn [invocations is_invocation Nat.add].
    fold (guestproperty_cmd vbox vm_name).
    destruct (respond W n (guestproperty_cmd vbox vm_name))
      as [rc out err| | |]; try reflexivity.
    cbn [exited_zero] in Hfail. rewrite Hfail. reflexivity.
Qed.

(** X11. A query whose command does not exit 0 (non-zero exit, timeout,
    missing or unlaunchable executable) gives None, for the status and for
    the IP alike, after that single command. *)
Theorem failed_query_gives_none W self vbox vm_name n :
  located self = Some vbox ->
  (exited_zero (respond W n (showvminfo_cmd vbox vm_name)) = false ->
   get_vm_status W self vm_name n
   = (inr None,
      [Call (m_get_vm_status vm_name); Run (showvminfo_cmd vbox vm_name)]))
  /\ (exited_zero (respond W n (guestproperty_cmd vbox vm_name)) = false ->
      get_vm_ip W self vm_name n
      = (inr None,
         [Call (m_get_vm_ip vm_name); Run (guestproperty_cmd vbox vm_name)])).
Proof. exact (failed_query_run W self vbox vm_name n). Qed.

Lemma failed_query_gives_none_witness :
  located Sample.manager = Some Sample.vbox
  /\ value (get_vm_status Sample.info_query_fails Sample.manager "web-01" 0)
     = inr None.
Proof.
  split; [reflexivity|].
  destruct (failed_query_gives_none Sample.info_query_fails Sample.manager
              Sample.vbox "web-01" 0 eq_refl) as [H _].
  now rewrite (H eq_refl).
Defined.

(* ================================================================== *)
(** ** More on the VM list and the guest IP *)

Lemma names_after_quote_no_quote lines :
  Forall (fun name => contains dquote name = false)
         (names_after_quote lines).
Proof.
  induction lines as [|line rest IH]; [constructor|].
  cbn [names_after_quote flat_map]. fold (names_after_quote rest).
  destruct (field_after dquote line) as [v|] eqn:Hf; [|exact IH].
  cbn [app]. constructor; [|exact IH].
  now apply (field_after_char_no_sep dquote_char line).
Qed.

Lemma names_after_quote_length lines :
  length (names_after_quote lines) <= length lines.
Proof.
  induction lines as [|line rest IH]; [cbn; lia|].
  cbn [names_after_quote flat_map]. fold (names_after_quote rest).
  destruct (field_after dquote line); cbn [app length]; lia.
Qed.

(** X12. No name returned by [list_vms] holds a double quote, and there
    are never more names than lines in the trimmed output of the list
    command. *)
Theorem list_vms_names_hold_no_quote W self n names :
  value (list_vms W self n) = inr names ->
  Forall (fun name => contains dquote name = false) names
  /\ (forall vbox rc out err,
        located self = Some vbox ->
        respond W n (list_cmd vbox) = Exited rc out err ->
        length names <= length (output_lines out)).
Proof.
  intros Hnames. destruct (located self) as [vbox|] eqn:Hloc.
  - rewrite (list_vms_run W _ _ _ Hloc) in Hnames.
    unfold value in Hnames. cbn [fst] in Hnames. injection Hnames as <-.
    split.
    + destruct (respond W n (list_cmd vbox)) as [rc out err| | |];
        try constructor.
      destruct (rc =? 0)%Z; [apply names_after_quote_no_quote|constructor].
    + intros vbox' rc out err [= <-] Ho. rewrite Ho.
      destruct (rc =? 0)%Z; [apply names_after_quote_length|cbn; lia].
  - unfold list_vms in Hnames. rewrite Hloc in Hnames.
    injection Hnames as <-. split; [constructor|]. discriminate.
Qed.

Lemma list_vms_names_hold_no_quote_witness :
  value (list_vms (Sample.answering Sample.unclosed) Sample.manager 0)
  = inr ["stale"]
  /\ Forall (fun name => contains dquote name = false) ["stale"].
Proof.
  split; [reflexivity|].
  exact (proj1 (list_vms_names_hold_no_quote
                  (Sample.answering Sample.unclosed) Sample.manager 0
                  ["stale"] eq_refl)).
Defined.

(** X13. An address returned by [get_vm_ip] is trimmed: it neither starts
    nor ends with a whitespace character. *)
Theorem get_vm_ip_is_trimmed W self vm_name n ip :
  value (get_vm_ip W self vm_name n) = inr (Some ip) ->
  (forall c, first_char ip = Some c -> is_space c = false)
  /\ (forall c, last_char ip = Some c -> is_space c = false).
Proof.
  intros Hip. destruct (located self) as [vbox|] eqn:Hloc.
  - destruct (respond W n (guestproperty_cmd vbox vm_name))
      as [rc out err| | |] eqn:Ho.
    + destruct (Z.eqb_spec rc 0) as [->|Hrc].
      * rewrite (get_vm_ip_exited_zero W self vbox vm_name n out err
                   Hloc Ho) in Hip.
        destruct (contains "No value set!" (strip out)); [discriminate|].
        destruct (field_after "Value: " (strip out)) as [v|];
          [|discriminate].
        injection Hip as <-. apply strip_by_ends.
      * destruct (failed_query_run W self vbox vm_name n Hloc)
          as [_ H].
        rewrite H in Hip; [discriminate|]. rewrite Ho. cbn.
        now apply Z.eqb_neq.
    + destruct (failed_query_run W self vbox vm_name n Hloc)
        as [_ H].
      rewrite H in Hip; [discriminate|]. now rewrite Ho.
    + destruct (failed_query_run W self vbox vm_name n Hloc)
        as [_ H].
      rewrite H in Hip; [discriminate|]. now rewrite Ho.
    + destruct (failed_query_run W self vbox vm_name n Hloc)
        as [_ H].
      rewrite H in Hip; [discriminate|]. now rewrite Ho.
  - unfold get_vm_ip in Hip. rewrite Hloc in Hip. discriminate.
Qed.

Lemma get_vm_ip_is_trimmed_witness :
  value (get_vm_ip Sample.running_guest Sample.manager "web-01" 0)
  = inr (Some "10.0.2.15")
  /\ last_char "10.0.2.15" = Some "5"%char
  /\ is_space "5"%char = false.
Proof.
  split; [reflexivity|]. split; [reflexivity|].
  exact (proj2 (get_vm_ip_is_trimmed Sample.running_guest Sample.manager
                  "web-01" 0 "10.0.2.15" eq_refl) "5"%char eq_refl).
Defined.

(* ================================================================== *)
(** ** The two remote-shell paths *)

(** The address that [send_message_to_vm] and [open_terminal] connect to:
    the one [get_vm_ip] returned. *)
Lemma send_message_to_vm_spec W self vbox vm_name user password message n ip :
  located self = Some vbox ->
  value (get_vm_ip W self vm_name n) = inr ip ->
  send_message_to_vm W self vm_name user password message n
  = match ip with
    | Some (String c a) =>
        (inr (exited_zero
                (respond W (S n)
                   (ssh_cmd user (String c a) password message))),
         [ Call (m_send_message_to_vm vm_name user password message);
           Call (m_get_vm_ip vm_name);
           Run (guestproperty_cmd vbox vm_name);
           Run (ssh_cmd user (String c a) password message) ])
    | _ =>
        (inr false,
         [ Call (m_send_message_to_vm vm_name user password message);
           Call (m_get_vm_ip vm_name);
           Run (guestproperty_cmd vbox vm_name) ])
    end.
Proof.
  intros Hloc Hip. unfold send_message_to_vm. rewrite Hloc.
  unfold bind at 1. unfold emit at 1. cbv beta iota.
  change (invocations [Call (m_send_message_to_vm vm_name user password
                               message)] + n) with n.
  unfold try_except. unfold bind at 1.
  destruct (get_vm_ip_run W self vbox vm_name n Hloc) as [ip' Hrun].
  rewrite Hrun in *. unfold value in Hip. cbn [fst] in Hip.
  injection Hip as ->. cbv beta iota.
  destruct ip as [[|c a]|]; cbn [truthy negb]; try reflexivity.
  unfold bind, subprocess_run, ret, any_exception, ssh_cmd.
  cbn [invocations is_invocation Nat.add app andb returncode].
  destruct (respond W (S n) _) as [rc out err| | |]; cbn; try reflexivity.
  destruct (rc =? 0)%Z; reflexivity.
Qed.

Lemma open_terminal_spec W self vbox vm_name user n ip :
  located self = Some vbox ->
  value (get_vm_ip W self vm_name n) = inr ip ->
  open_terminal W self vm_name user n
  = match ip with
    | Some (String c a) =>
        (inr (match spawn W (S n) (wt_cmd vm_name user (String c a)) with
              | Spawned => true
              | _ => false
              end),
         [ Call (m_open_terminal vm_name user);
           Call (m_get_vm_ip vm_name);
           Run (guestproperty_cmd vbox vm_name);
           Popen (wt_cmd vm_name user (String c a)) ])
    | _ =>
        (inr false,
         [ Call (m_open_terminal vm_name user);
           Call (m_get_vm_ip vm_name);
           Run (guestproperty_cmd vbox vm_name) ])
    end.
Proof.
  intros Hloc Hip. unfold open_terminal. rewrite Hloc.
  unfold bind at 1. unfold emit at 1. cbv beta iota.
  change (invocations [Call (m_open_terminal vm_name user)] + n) with n.
  unfold try_except. unfold bind at 1.
  destruct (get_vm_ip_run W self vbox vm_name n Hloc) as [ip' Hrun].
  rewrite Hrun in *. unfold value in Hip. cbn [fst] in Hip.
  injection Hip as ->. cbv beta iota.
  destruct ip as [[|c a]|]; cbn [truthy negb]; try reflexivity.
  unfold bind, subprocess_popen, ret, any_exception, wt_cmd.
  cbn [invocations is_invocation Nat.add app].
  destruct (spawn W (S n) _); reflexivity.
Qed.

(** X14. [send_message_to_vm] hands the password to [ssh] on its standard
    input and never puts it on a command line: whatever the password, the
    same command lines are run.  The only command that is given an input
    is [ssh], and what it is given is the password. *)
Theorem send_message_to_vm_password_on_stdin_only
    W self vm_name user password password' message n :
  map argv (commands (events (send_message_to_vm W self vm_name user
                                password message n)))
  = map argv (commands (events (send_message_to_vm W self vm_name user
                                  password' message n)))
  /\ (forall c,
        In (Run c) (events (send_message_to_vm W self vm_name user
                              password message n)) ->
        input c = None
        \/ (input c = Some password /\ executable c = "ssh")).
Proof.
  destruct (located self) as [vbox|] eqn:Hloc.
  - destruct (get_vm_ip_run W self vbox vm_name n Hloc) as [ip Hrun].
    assert (Hip : value (get_vm_ip W self vm_name n) = inr ip)
      by now rewrite Hrun.
    rewrite (send_message_to_vm_spec W self vbox vm_name user password
               message n ip Hloc Hip).
    rewrite (send_message_to_vm_spec W self vbox vm_name user password'
               message n ip Hloc Hip).
    destruct ip as [[|c a]|]; unfold events; cbn [snd]; split;
      try reflexivity; intros cmd Hin; cbn [In] in Hin;
      repeat destruct Hin as [Hin|Hin]; try discriminate;
      try contradiction; injection Hin as <-; cbn; auto.
  - unfold send_message_to_vm. rewrite Hloc. split; [reflexivity|].
    intros c [Hc|[]]. discriminate.
Qed.

(** X15. Without an address (None, or an empty one) neither remote-shell
    path connects: [send_message_to_vm] and [open_terminal] return False
    after the guest-property query, with no [ssh] and no terminal.  With
    an address, [send_message_to_vm] succeeds exactly when [ssh] exits 0,
    and [open_terminal] spawns the terminal on [user@address] under the
    title [SSH-] followed by the VM name, succeeding exactly when the
    spawn does. *)
Theorem remote_shell_needs_an_address W self vbox vm_name user password
    message n ip :
  located self = Some vbox ->
  value (get_vm_ip W self vm_name n) = inr ip ->
  let sent := send_message_to_vm W self vm_name user password message n in
  let opened := open_terminal W self vm_name user n in
  (truthy ip = false ->
   value sent = inr false /\ value opened = inr false
   /\ commands (events sent) = [guestproperty_cmd vbox vm_name]
   /\ commands (events opened) = [guestproperty_cmd vbox vm_name]
   /\ popens (events opened) = 0)
  /\ (forall address, ip = Some address -> truthy ip = true ->
      value sent
      = inr (exited_zero
               (respond W (S n) (ssh_cmd user address password message)))
      /\ commands (events sent)
         = [ guestproperty_cmd vbox vm_name;
             ssh_cmd user address password message ]
      /\ value opened
         = inr (match spawn W (S n)
                        [ "wt"; "new-tab"; "--title"; "SSH-" ++ vm_name;
                          "--"; "ssh"; user ++ "@" ++ address ] with
                | Spawned => true
                | _ => false
                end)
      /\ popens (events opened) = 1).
Proof.
  intros Hloc Hip sent opened. subst sent opened.
  rewrite (send_message_to_vm_spec W self vbox vm_name user password
             message n ip Hloc Hip).
  rewrite (open_terminal_spec W self vbox vm_name user n ip Hloc Hip).
  split.
  - intros Hno. destruct ip as [[|c a]|]; try discriminate;
      repeat split; reflexivity.
  - intros address -> Hyes. destruct address as [|c a]; [discriminate|].
    repeat split; reflexivity.
Qed.

Lemma remote_shell_needs_an_address_witness :
  located Sample.manager = Some Sample.vbox
  /\ value (get_vm_ip Sample.no_guest_tooling Sample.manager "web-01" 0)
     = inr None
  /\ value (open_terminal Sample.no_guest_tooling Sample.manager "web-01"
              "alice" 0) = inr false.
Proof.
  split; [reflexivity|]. split; [reflexivity|].
  destruct (remote_shell_needs_an_address Sample.no_guest_tooling
              Sample.manager Sample.vbox "web-01" "alice" "secret" "hello"
              0 None eq_refl eq_refl) as [H _].
  destruct (H eq_refl) as (_ & Hopen & _). exact Hopen.
Defined.

(* ================================================================== *)
(** ** More on the actions of main *)



(** X17. The [start] action starts the VM headless unless [--gui] was
    given, with a single [startvm] command bounded by 60 seconds, and the
    process exits with status 0 exactly when that command exits 0. *)
Theorem start_action_is_headless_unless_gui
    W vm_manager vbox vm gui_flag force_flag usr pw txt n :
  located vm_manager = Some vbox ->
  let args := mkArgs a_start vm gui_flag force_flag usr pw txt in
  let cmd := mkCmd [ vbox; "startvm"; vm; "--type";
                     if gui_flag then "gui" else "headless" ] None 60 in
  main_action W vm_manager args n
  = (inr (if exited_zero (respond W n cmd) then 0%Z else 1%Z),
     [Call (m_start_vm vm (negb gui_flag)); Run cmd]).
Proof.
  intros Hloc args cmd. subst args cmd.
  unfold main_action. rewrite (located_truthy _ _ Hloc).
  cbn [negb action vm_name gui]. unfold bind.
  rewrite (start_vm_run W _ _ _ _ _ Hloc). unfold startvm_cmd.
  destruct gui_flag; cbn [negb];
    destruct (exited_zero (respond W n _)); reflexivity.
Qed.

Lemma start_action_is_headless_unless_gui_witness :
  located Sample.manager = Some Sample.vbox
  /\ main_action Sample.stuck_guest Sample.manager
       (mkArgs a_start "web-01" false false "" None "") 0
     = (inr 1%Z,
        [ Call (m_start_vm "web-01" true);
          Run (startvm_cmd Sample.vbox "web-01" true) ]).
Proof.
  split; [reflexivity|].
  exact (start_action_is_headless_unless_gui Sample.stuck_guest
           Sample.manager Sample.vbox "web-01" false false "" None "" 0
           eq_refl).
Defined.

(* ================================================================== *)
(** ** The storage controller *)


Lemma find_controller_first before line after n :
  existsb names_controller before = false ->
  names_controller line = true ->
  find_controller (before ++ line :: after) n
  = (match field_after "=" line with
     | Some v => inr (Some (strip_chars [dquote_char] v))
     | None => inl IndexError
     end, []).
Proof.
  intros Hbefore Hline. induction before as [|l before IH].
  - cbn [app find_controller]. unfold names_controller in Hline.
    rewrite Hline. unfold field_after, py_index.
    destruct (cut "=" line) as [[a b]|] eqn:Hcut.
    + rewrite (split_index_1 _ _ _ _ Hcut). reflexivity.
    + unfold split. cbn [split_fuel]. rewrite Hcut. reflexivity.
  - cbn [existsb] in Hbefore. apply orb_false_elim in Hbefore as [Hl Hb].
    cbn [app find_controller]. unfold names_controller in Hl.
    rewrite Hl. exact (IH Hb).
Qed.

Lemma install_guest_additions_unreadable W self vbox vm_name n out err e :
  located self = Some vbox ->
  path_exists W (guest_additions_iso W vbox) = true ->
  respond W n (showvminfo_cmd vbox vm_name) = Exited 0 out err ->
  value (find_controller (split newline out) 0) = inl e ->
  install_guest_additions W self vm_name n
  = (inr false,
     [ Call (m_install_guest_additions vm_name);
       Run (showvminfo_cmd vbox vm_name) ]).
Proof.
  intros Hloc Hiso Hinfo Hfound.
  unfold install_guest_additions. rewrite Hloc.
  unfold bind at 1. unfold emit at 1. cbv beta iota.
  change (invocations [Call (m_install_guest_additions vm_name)] + n)
    with n.
  cbv zeta. fold (guest_additions_iso W vbox). rewrite Hiso. cbn [negb].
  unfold try_except at 1. unfold bind at 1.
  rewrite (subprocess_run_checked W _ None 30 n out err Hinfo).
  cbv beta iota. cbn [stdout invocations is_invocation Nat.add].
  unfold bind at 1. rewrite find_controller_pure.
  unfold value in Hfound. rewrite Hfound. reflexivity.
Qed.



(** X19. A controller line that cannot be read ends the saga.  With the
    medium present and an info query that exited 0, when the first line
    that names an IDE or SATA storage controller holds no "=", the saga
    returns False right after the info query: no attach is attempted and
    the default controller is not tried. *)
Theorem install_guest_additions_unreadable_controller
    W self vbox vm_name n out err before line after :
  located self = Some vbox ->
  path_exists W (guest_additions_iso W vbox) = true ->
  respond W n (showvminfo_cmd vbox vm_name) = Exited 0 out err ->
  split newline out = (before ++ line :: after)%list ->
  existsb names_controller before = false ->
  names_controller line = true ->
  contains "=" line = false ->
  install_guest_additions W self vm_name n
  = (inr false,
     [ Call (m_install_guest_additions vm_name);
       Run (showvminfo_cmd vbox vm_name) ]).
Proof.
  intros Hloc Hiso Hinfo Hlines Hbefore Hline Hno.
  apply (install_guest_additions_unreadable W self vbox vm_name n out err
           IndexError Hloc Hiso Hinfo).
  rewrite Hlines, (find_controller_first before line after 0 Hbefore Hline).
  unfold field_after. now rewrite (contains_false_cut _ _ Hno).
Qed.

Lemma install_guest_additions_unreadable_controller_witness :
  located Sample.manager = Some Sample.vbox
  /\ install_guest_additions
       (Sample.answering "StorageControllerName0: IDE")
       Sample.manager "web-01" 0
     = (inr false,
        [ Call (m_install_guest_additions "web-01");
          Run (showvminfo_cmd Sample.vbox "web-01") ]).
Proof.
  split; [reflexivity|].
  apply (install_guest_additions_unreadable_controller
           (Sample.answering "StorageControllerName0: IDE")
           Sample.manager Sample.vbox "web-01" 0
           "StorageControllerName0: IDE" ""
           [] "StorageControllerName0: IDE" []);
    reflexivity.
Defined.

(* ================================================================== *)
(** ** The log formatter *)

Lemma spaces_length n : String.length (spaces n) = n.
Proof. induction n as [|n IH]; cbn; [reflexivity|now rewrite IH]. Qed.

Lemma string_length_app (s t : string) :
  String.length (s ++ t) = String.length s + String.length t.
Proof. induction s as [|c s IH]; cbn; [reflexivity|now rewrite IH]. Qed.

Lemma ljust_length s width :
  String.length (ljust s width) = Nat.max width (String.length s).
Proof. unfold ljust. rewrite string_length_app, spaces_length. lia. Qed.

Lemma format_all_app ansi self before after :
  format_all ansi self (before ++ after)
  = (fst (format_all ansi (fst (format_all ansi self before)) after),
     (snd (format_all ansi self before)
      ++ snd (format_all ansi (fst (format_all ansi self before)) after))%list).
Proof.
  revert self. induction before as [|r before IH]; intros self.
  - cbn. now destruct (format_all ansi self after).
  - cbn [app format_all]. destruct (format ansi self r) as [self' line].
    rewrite IH. destruct (format_all ansi self' before) as [self'' lines].
    cbn [fst snd]. now destruct (format_all ansi self'' after).
Qed.

Lemma format_all_state ansi self records :
  max_level_len (fst (format_all ansi self records))
  = longest_level (max_level_len self) records
  /\ colors (fst (format_all ansi self records)) = colors self
  /\ length (snd (format_all ansi self records)) = length records.
Proof.
  revert self. induction records as [|r rest IH]; intros self.
  - cbn. auto.
  - cbn [format_all]. unfold format. cbv beta iota zeta.
    set (self1 := mkColoredFormatter _ _ _ _).
    destruct (IH self1) as (Hw & Hc & Hl).
    destruct (format_all ansi self1 rest) as [self'' lines].
    cbn [fst snd length] in *. subst self1.
    cbn [max_level_len colors] in Hw, Hc.
    unfold longest_level in *. cbn [fold_left].
    repeat split; [exact Hw|exact Hc|now rewrite Hl].
Qed.

(** X20. One formatter, a sequence of records: the level field of each
    line is padded with spaces to the longest level name seen so far (that
    record included), so the field never narrows from one line to the
    next; the line is the field in brackets, wrapped in the colour of the
    level (white for an unknown level) and the reset sequence, followed by
    a space and the message. *)
Theorem format_pads_to_longest_level_so_far ansi self before record after :
  let width := longest_level (max_level_len self) (before ++ [record]) in
  let lines := snd (format_all ansi self (before ++ record :: after)) in
  nth_error lines (length before)
  = Some ("[" ++ dict_get (colors self) (levelname record) (Fore_WHITE ansi)
          ++ ljust (levelname record) width
          ++ Style_RESET_ALL ansi ++ "] " ++ getMessage record)
  /\ String.length (ljust (levelname record) width) = width
  /\ longest_level (max_level_len self) before <= width
  /\ String.length (levelname record) <= width.
Proof.
  intros width lines. subst width lines.
  assert (Hw : longest_level (max_level_len self) (before ++ [record])
               = Nat.max (longest_level (max_level_len self) before)
                         (String.length (levelname record))).
  { unfold longest_level. now rewrite fold_left_app. }
  rewrite format_all_app. cbn [snd].
  destruct (format_all_state ansi self before) as (Hb & Hc & Hl).
  rewrite nth_error_app2 by lia. rewrite Hl, Nat.sub_diag.
  cbn [format_all]. unfold format at 1. cbv zeta.
  destruct (format_all ansi _ after) as [self'' rest].
  cbn [snd nth_error max_level_len colors]. rewrite Hb, Hc, Hw.
  split; [reflexivity|]. rewrite ljust_length. repeat split; lia.
Qed.

(** Three records through a fresh formatter: the field widens from
    "INFO" to "WARNING" and stays wide for "DEBUG". *)
Example format_three_records :
  let ansi := mkColorama "<c>" "<g>" "<y>" "<r>" "<m>" "<w>" "<b>" "<0>" in
  snd (format_all ansi (ColoredFormatter_init ansi)
         [ mkLogRecord "INFO" "starting";
           mkLogRecord "WARNING" "no address";
           mkLogRecord "DEBUG" "done" ])
  = [ "[<g>INFO<0>] starting";
      "[<y>WARNING<0>] no address";
      "[<c>DEBUG  <0>] done" ].
Proof. reflexivity. Qed.

(* ================================================================== *)
(** ** The interactive choice of the VM *)

Lemma existsb_eqb_In (x : string) l :
  existsb (String.eqb x) l = true -> In x l.
Proof.
  intros H. apply existsb_exists in H as (y & Hy & Heq).
  apply String.eqb_eq in Heq. now subst.
Qed.

Lemma choose_vm_answer int_refuses vms inputs name rest :
  choose_vm int_refuses vms inputs = Answered name rest ->
  In name vms
  /\ exists skipped line, inputs = (skipped ++ line :: rest)%list.
Proof.
  induction inputs as [|line more IH]; cbn [choose_vm]; [discriminate|].
  assert (Hloop : choose_vm int_refuses vms more = Answered name rest ->
            In name vms
            /\ exists skipped l, line :: more = (skipped ++ l :: rest)%list).
  { intros H. destruct (IH H) as (Hin & skipped & l & ->).
    split; [exact Hin|]. now exists (line :: skipped), l. }
  destruct (isdigit (strip line)).
  - destruct (py_int int_refuses (strip line)) as [number|];
      [|discriminate].
    destruct ((0 <=? number - 1)%Z
              && (number - 1 <? Z.of_nat (length vms))%Z) eqn:Hrange;
      [|exact Hloop].
    intros [= <- <-]. split; [|now exists [], line].
    apply andb_prop in Hrange as [H0 H1].
    apply nth_In. lia.
  - destruct (existsb (String.eqb (strip line)) vms) eqn:Hin;
      [|exact Hloop].
    intros [= <- <-]. split; [now apply existsb_eqb_In|now exists [], line].
Qed.

Lemma enter_vm_name_answer inputs name rest :
  enter_vm_name inputs = Answered name rest ->
  name <> ""
  /\ exists skipped line,
       inputs = (skipped ++ line :: rest)%list /\ name = strip line.
Proof.
  induction inputs as [|line more IH]; cbn [enter_vm_name]; [discriminate|].
  destruct (strip line) as [|c s] eqn:Hs; cbn [is_empty negb].
  - intros H. destruct (IH H) as (Hne & skipped & l & -> & ->).
    split; [exact Hne|]. now exists (line :: skipped), l.
  - intros [= <- <-]. split; [discriminate|]. now exists [], line.
Qed.

(** X21. The interactive choice only ever answers with a listed VM: when
    VMs are known, the name it settles on is one of them, whether it was
    picked by number or typed; when none is known, the name is whatever
    non-empty text was typed, trimmed.  Either way at least one typed line
    was consumed. *)
Theorem prompt_vm_name_answers_with_a_listed_vm
    int_refuses vms inputs name rest :
  prompt_vm_name int_refuses vms inputs = Answered name rest ->
  (vms <> [] -> In name vms)
  /\ (vms = [] -> name <> "" /\ exists line, In line inputs
                                             /\ name = strip line)
  /\ exists skipped line, inputs = (skipped ++ line :: rest)%list.
Proof.
  destruct vms as [|vm vms]; cbn [prompt_vm_name]; intros H.
  - destruct (enter_vm_name_answer inputs name rest H)
      as (Hne & skipped & line & -> & ->).
    split; [congruence|]. split; [|eauto].
    intros _. split; [exact Hne|]. exists line.
    split; [|reflexivity]. apply in_or_app. right. now left.
  - destruct (choose_vm_answer int_refuses (vm :: vms) inputs name rest H)
      as (Hin & Hrest).
    split; [auto|]. split; [discriminate|exact Hrest].
Qed.

Lemma prompt_vm_name_answers_with_a_listed_vm_witness :
  prompt_vm_name (fun _ => false) ["web-01"; "db-01"]
    ["3"; "web"; " 2 "; "db-01"] = Answered "db-01" ["db-01"]
  /\ In "db-01" ["web-01"; "db-01"].
Proof.
  split; [reflexivity|].
  refine (proj1 (prompt_vm_name_answers_with_a_listed_vm (fun _ => false)
                   ["web-01"; "db-01"] ["3"; "web"; " 2 "; "db-01"]
                   "db-01" ["db-01"] eq_refl) _).
  discriminate.
Defined.

(** X22. A typed number is always read as a position, never as a name.
    A line of ASCII digits whose value is between 1 and the number of VMs
    picks the VM at that position (counted from 1); one whose value is out
    of that range is rejected and the next line is read, even when the
    typed text is itself the name of a listed VM. *)
Theorem choose_vm_reads_digits_as_a_position
    int_refuses vms line rest :
  let choice := strip line in
  let number := Z.of_N (decimal_value 0 choice) in
  choice <> "" ->
  all_chars is_ascii_digit choice = true ->
  int_refuses choice = false ->
  ((1 <= number <= Z.of_nat (length vms))%Z ->
   choose_vm int_refuses vms (line :: rest)
   = Answered (nth (Z.to_nat (number - 1)) vms "") rest)
  /\ (~ (1 <= number <= Z.of_nat (length vms))%Z ->
      choose_vm int_refuses vms (line :: rest)
      = choose_vm int_refuses vms rest).
Proof.
  intros choice number Hne Hdigits Hok. subst choice number.
  assert (Hisdigit : isdigit (strip line) = true).
  { unfold isdigit. destruct (strip line) as [|c s]; [contradiction|].
    cbn [is_empty negb andb].
    clear Hne Hok. revert Hdigits. generalize (String c s). clear.
    intros s. induction s as [|a s IH]; cbn [all_chars]; [reflexivity|].
    intros [Ha Hs]%andb_prop. rewrite (IH Hs). unfold is_digit_char.
    now rewrite Ha. }
  cbn [choose_vm]. rewrite Hisdigit. unfold py_int.
  rewrite Hdigits, Hok. cbn [andb negb].
  split; intros Hrange.
  - replace ((0 <=? Z.of_N (decimal_value 0 (strip line)) - 1)%Z
             && (Z.of_N (decimal_value 0 (strip line)) - 1
                 <? Z.of_nat (length vms))%Z) with true; [reflexivity|].
    symmetry. apply andb_true_intro. split; lia.
  - replace ((0 <=? Z.of_N (decimal_value 0 (strip line)) - 1)%Z
             && (Z.of_N (decimal_value 0 (strip line)) - 1
                 <? Z.of_nat (length vms))%Z) with false; [reflexivity|].
    symmetry. apply andb_false_iff. lia.
Qed.

Lemma choose_vm_reads_digits_as_a_position_witness :
  choose_vm (fun _ => false) ["2"; "1"] ["1"] = Answered "2" []
  /\ choose_vm (fun _ => false) ["7"; "web-01"] ["7"; "web-01"]
     = Answered "web-01" [].
Proof.
  split.
  - refine (proj1 (choose_vm_reads_digits_as_a_position (fun _ => false)
                     ["2"; "1"] "1" [] _ eq_refl eq_refl) _);
      [discriminate|cbn; lia].
  - reflexivity.
Defined.



(* ================================================================== *)
(** ** The component boundary *)

(** X24. No method of the manager lets an exception escape: whatever the
    external processes do (non-zero exit, timeout, missing executable,
    launch error) and whatever text they print, each method returns a
    value. *)
Theorem methods_never_raise W self vm_name user password message
    headless graceful :
  returns (find_vboxmanage W)
  /\ returns (list_vms W self)
  /\ returns (start_vm W self vm_name headless)
  /\ returns (stop_vm W self vm_name graceful)
  /\ returns (get_vm_ip W self vm_name)
  /\ returns (get_vm_status W self vm_name)
  /\ returns (install_guest_additions W self vm_name)
  /\ returns (send_message_to_vm W self vm_name user password message)
  /\ returns (broadcast_message_to_vm W self vm_name user message)
  /\ returns (open_terminal W self vm_name user)
  /\ returns (start_vm_and_open_a_terminal W self vm_name user).
Proof.
  split.
  { unfold find_vboxmanage.
    apply returns_bind; [apply returns_emit|intros _].
    apply returns_try_any. }
  split; [apply list_vms_returns|].
  split; [apply start_vm_returns|].
  split; [apply stop_vm_returns|].
  split; [apply get_vm_ip_returns|].
  split; [apply get_vm_status_returns|].
  split; [apply install_guest_additions_returns|].
  split; [apply send_message_to_vm_returns|].
  split; [apply broadcast_message_to_vm_returns|].
  split; [apply open_terminal_returns|].
  apply start_vm_and_open_a_terminal_returns.
Qed.
